(** * Reference normalisation of the [reference] package (remote.go)

    A shallow embedding of [splitHostname], [normalize], [validateName],
    [WithRemoteName], [WithRemoteTag], [WithRemoteDigest] and
    [ParseRemoteNamed], with the properties the specification states about
    them.

    Go strings are byte sequences; they are modelled by [string] (a list of
    8-bit [ascii]).  The functions of Go's [strings] package used by
    remote.go are defined on that representation, under their Go names;
    what [strings.ToLower] does to a string that is not ASCII depends on
    Go's Unicode tables and is a parameter. *)

From Stdlib Require Import ZArith NArith Bool List Lia.
From Stdlib Require Import Strings.Ascii Strings.String.
Import ListNotations.

Open Scope string_scope.
Open Scope Z_scope.

(** ** The part of Go's [strings] package used by remote.go *)

Module strings.

(** [strings.IndexRune(s, c)] for a rune [c] below [utf8.RuneSelf]: the
    index of the first byte equal to [c], or [-1]. *)
Fixpoint IndexRune (s : string) (c : ascii) : Z :=
  match s with
  | EmptyString => -1
  | String a rest =>
      if Ascii.eqb a c then 0
      else let i := IndexRune rest c in
           if i =? -1 then -1 else i + 1
  end.

(** [strings.ContainsRune(s, c)], again for an ASCII rune. *)
Fixpoint ContainsRune (s : string) (c : ascii) : bool :=
  match s with
  | EmptyString => false
  | String a rest => Ascii.eqb a c || ContainsRune rest c
  end.

(** [strings.ContainsAny(s, chars)]: some byte of [chars] occurs in [s]
    ([chars] is ASCII at the only call site). *)
Fixpoint ContainsAny (s chars : string) : bool :=
  match s with
  | EmptyString => false
  | String a rest => ContainsRune chars a || ContainsAny rest chars
  end.

(** [strings.HasPrefix(s, prefix)]. *)
Fixpoint HasPrefix (s prefix : string) {struct prefix} : bool :=
  match prefix, s with
  | EmptyString, _ => true
  | String _ _, EmptyString => false
  | String p prefix', String a s' => Ascii.eqb a p && HasPrefix s' prefix'
  end.

(** The Go slice expression [s[n:]] for [0 <= n <= len(s)]. *)
Fixpoint drop (n : nat) (s : string) : string :=
  match n, s with
  | O, _ => s
  | S _, EmptyString => EmptyString
  | S n', String _ s' => drop n' s'
  end.

(** The Go slice expression [s[:n]] for [0 <= n <= len(s)]. *)
Fixpoint take (n : nat) (s : string) : string :=
  match n, s with
  | O, _ => EmptyString
  | S _, EmptyString => EmptyString
  | S n', String a s' => String a (take n' s')
  end.

(** [strings.TrimPrefix(s, prefix)]. *)
Definition TrimPrefix (s prefix : string) : string :=
  if HasPrefix s prefix then drop (String.length prefix) s else s.

(** One byte of [strings.ToLower]: ['A'..'Z'] go to ['a'..'z'], every other
    byte is kept. *)
Definition lowerByte (a : ascii) : ascii :=
  let n := N_of_ascii a in
  if ((65 <=? n) && (n <=? 90))%N then ascii_of_N (n + 32) else a.

(** A byte below [utf8.RuneSelf], and a string of such bytes only. *)
Definition isASCIIbyte (a : ascii) : bool := (N_of_ascii a <? 128)%N.

Fixpoint isASCII (s : string) : bool :=
  match s with
  | EmptyString => true
  | String a rest => isASCIIbyte a && isASCII rest
  end.

(** The ASCII branch of [strings.ToLower]: every byte through [lowerByte]. *)
Fixpoint lowerBytes (s : string) : string :=
  match s with
  | EmptyString => EmptyString
  | String a rest => String (lowerByte a) (lowerBytes rest)
  end.

(** [strings.ToLower(s)], given what it does off ASCII.  Go's function scans
    [s] first: when every byte is below [utf8.RuneSelf] it lowers ['A'..'Z']
    byte by byte; otherwise it returns [strings.Map(unicode.ToLower, s)],
    for which [mapLower] stands. *)
Definition lowerWith (mapLower : string -> string) (s : string) : string :=
  if isASCII s then lowerBytes s else mapLower s.

(** [strings.Map(unicode.ToLower, s)] decodes [s] rune by rune and maps each
    rune through the case tables of Go's [unicode] package, which are no
    part of the repository: a parameter.  One fact is used of it.  A byte
    [c] below [utf8.RuneSelf] is never part of the encoding of another rune,
    so [a ++ c ++ b] is read as the runes of [a], the rune [c] and the runes
    of [b], each mapped on its own; hence [strings.ToLower] returns
    [a ++ c ++ b] unchanged exactly when it returns [a], [c] and [b]
    unchanged. *)
Class UnicodeLower : Type := {
  mapLower : string -> string;
  mapLower_cut :
    forall (a : string) (c : ascii) (b : string),
      isASCIIbyte c = true ->
      (lowerWith mapLower (a ++ String c b) = a ++ String c b
       <-> lowerWith mapLower a = a /\ lowerByte c = c
           /\ lowerWith mapLower b = b)
}.

Definition ToLower `{UnicodeLower} (s : string) : string :=
  lowerWith mapLower s.

End strings.

(** The byte-wise map satisfies what is asked of [mapLower]. *)
Lemma lowerBytes_cut (a : string) (c : ascii) (b : string) :
  strings.isASCIIbyte c = true ->
  (strings.lowerWith strings.lowerBytes (a ++ String c b) = a ++ String c b
   <-> strings.lowerWith strings.lowerBytes a = a /\ strings.lowerByte c = c
       /\ strings.lowerWith strings.lowerBytes b = b).
Proof.
  intros _.
  assert (W : forall s, strings.lowerWith strings.lowerBytes s
                        = strings.lowerBytes s).
  { intros s. unfold strings.lowerWith. now destruct (strings.isASCII s). }
  rewrite !W. induction a as [|x a IH]; simpl.
  - split.
    + intros H. injection H as Hc Hb. now repeat split.
    + intros (_ & Hc & Hb). now rewrite Hc, Hb.
  - split.
    + intros H. injection H as Hx Hr. apply IH in Hr as (Ha & Hc & Hb).
      now rewrite Hx, Ha.
    + intros (H & Hc & Hb). injection H as Hx Ha.
      rewrite Hx. f_equal. apply IH. now repeat split.
Qed.

(** The parameter used on concrete inputs: bytes from 0x80 on are kept.  The
    concrete inputs below are ASCII strings, for which [strings.ToLower]
    does not consult it. *)
Definition bytewiseLower : strings.UnicodeLower :=
  strings.Build_UnicodeLower strings.lowerBytes lowerBytes_cut.

(** The slice expressions [name[:i]] and [name[i:]] with an [int] index. *)
Definition slice_to (s : string) (i : Z) : string := strings.take (Z.to_nat i) s.
Definition slice_from (s : string) (i : Z) : string := strings.drop (Z.to_nat i) s.

(** ** Constants of remote.go *)

Definition DefaultTag : string := "latest".
Definition DefaultHostname : string := "docker.io".
Definition LegacyDefaultHostname : string := "index.docker.io".
Definition DefaultRepoPrefix : string := "library/".

(** ** splitHostname and normalize *)

Definition splitHostname (name : string) : string * string :=
  let i := strings.IndexRune name "/" in
  let '(hostname, remoteName) :=
    if (i =? -1)
       || (negb (strings.ContainsAny (slice_to name i) ".:")
           && negb (slice_to name i =? "localhost")%string)
    then (DefaultHostname, name)
    else (slice_to name i, slice_from name (i + 1)) in
  let hostname :=
    if (hostname =? LegacyDefaultHostname)%string then DefaultHostname
    else hostname in
  let remoteName :=
    if (hostname =? DefaultHostname)%string
       && negb (strings.ContainsRune remoteName "/")
    then DefaultRepoPrefix ++ remoteName
    else remoteName in
  (hostname, remoteName).

(** ** Errors

    The base functions of the package (reference.go, regexp.go) and the
    digest package are missing; their errors are the kinds the specification
    lists for them.  remote.go adds three errors of its own, built with
    [errors.New] and [fmt.Errorf]. *)

Inductive BaseError : Type :=
| InvalidFormat
| InvalidNameComponent
| NamespaceTooLong
| InvalidTag
| InvalidDigest.

Inductive error : Type :=
| ErrParsingReference (s : string)
    (* fmt.Errorf("Error parsing reference: %q is not a valid repository/tag", s) *)
| ErrNotLowercase
    (* errors.New("invalid reference format: repository name must be lowercase") *)
| ErrHexName (name : string)
    (* fmt.Errorf("Invalid repository name (%s), cannot specify 64-byte hexadecimal strings", name) *)
| ErrBase (e : BaseError)
    (* an error of a base function, handed on as it is *).

(** A Go result pair [(T, error)] of which exactly one side is set. *)
Inductive result (A : Type) : Type :=
| Ok (a : A)
| Err (e : error).
Arguments Ok {A} a.
Arguments Err {A} e.

Definition normalize `{strings.UnicodeLower} (name : string) : result string :=
  let '(host, remoteName) := splitHostname name in
  if negb (strings.ToLower remoteName =? remoteName)%string then
    Err ErrNotLowercase
  else if (host =? DefaultHostname)%string then
    if strings.HasPrefix remoteName DefaultRepoPrefix
    then Ok (strings.TrimPrefix remoteName DefaultRepoPrefix)
    else Ok remoteName
  else Ok name.

(** ** The digest collaborator *)

Module digest.

Definition Digest : Type := string.

Definition isLowerHex (a : ascii) : bool :=
  let n := N_of_ascii a in
  (((48 <=? n) && (n <=? 57)) || ((97 <=? n) && (n <=? 102)))%N.

Fixpoint allLowerHex (s : string) : bool :=
  match s with
  | EmptyString => true
  | String a rest => isLowerHex a && allLowerHex rest
  end.

(** Modelled from the spec: [digest.ValidateHex] is missing; the
    specification reserves the strings of exactly 64 lowercase hexadecimal
    characters.  [true] stands for a [nil] error. *)
Definition ValidateHex (s : string) : bool :=
  (String.length s =? 64)%nat && allLowerHex s.

End digest.

Definition validateName (name : string) : option error :=
  if digest.ValidateHex name then Some (ErrHexName name) else None.

(** ** The base reference values

    Modelled from the spec: the interfaces [Named], [NamedTagged] and
    [Canonical] and their implementations live in reference.go, which is
    missing.  A value has a name and carries the tag and the digest it was
    given; the type assertion [named.(NamedTagged)] succeeds when a tag is
    present, [named.(Canonical)] when a digest is. *)
Record Named : Type := mkNamed {
  Name : string;
  namedTag : option string;
  namedDigest : option digest.Digest
}.

Definition repository (name : string) : Named := mkNamed name None None.
Definition taggedReference (name tag : string) : Named :=
  mkNamed name (Some tag) None.
Definition canonicalReference (name : string) (d : digest.Digest) : Named :=
  mkNamed name None (Some d).

(** The base functions remote.go calls.  [ParseNamed] and the three grammar
    checks behind [WithName], [WithTag] and [WithDigest] are parameters:
    their code is missing, and the theorems hold whatever they are. *)
Class ReferenceBase : Type := {
  ParseNamed : string -> BaseError + Named;
  checkName : string -> option BaseError;
  checkTag : string -> option BaseError;
  checkDigest : digest.Digest -> option BaseError
}.

(** Modelled from the spec: [WithName] (reference.go) validates the name and
    returns a value with that name and nothing else. *)
Definition WithName `{ReferenceBase} (name : string) : result Named :=
  match checkName name with
  | Some e => Err (ErrBase e)
  | None => Ok (repository name)
  end.

(** Modelled from the spec: [WithTag] (reference.go) validates the tag and
    returns a value with the name of [name] and the tag; what [name] carried
    besides its name is dropped. *)
Definition WithTag `{ReferenceBase} (name : Named) (tag : string) : result Named :=
  match checkTag tag with
  | Some e => Err (ErrBase e)
  | None => Ok (taggedReference (Name name) tag)
  end.

(** Modelled from the spec: [WithDigest] (reference.go) has the digest
    checked by the digest collaborator and returns a value with the name of
    [name] and the digest. *)
Definition WithDigest `{ReferenceBase} (name : Named) (d : digest.Digest) : result Named :=
  match checkDigest d with
  | Some e => Err (ErrBase e)
  | None => Ok (canonicalReference (Name name) d)
  end.

(** ** The remote reference layer *)

(** The three implementations of [RemoteNamed]: [*remoteNamedRef],
    [*remoteTaggedRef] and [*remoteCanonicalRef], each around the embedded
    [Named] value. *)
Inductive RemoteNamed : Type :=
| remoteNamedRef (r : Named)
| remoteTaggedRef (r : Named)
| remoteCanonicalRef (r : Named).

(** The embedded [Named]; its methods are promoted, so a [RemoteNamed] is
    used where a [Named] is expected. *)
Definition embedded (r : RemoteNamed) : Named :=
  match r with
  | remoteNamedRef n | remoteTaggedRef n | remoteCanonicalRef n => n
  end.
Coercion embedded : RemoteNamed >-> Named.

Definition FullName (r : RemoteNamed) : string :=
  let '(hostname, remoteName) := splitHostname (Name r) in
  hostname ++ "/" ++ remoteName.

Definition Hostname (r : RemoteNamed) : string :=
  fst (splitHostname (Name r)).

Definition RemoteName (r : RemoteNamed) : string :=
  snd (splitHostname (Name r)).

(** The method sets: only [*remoteTaggedRef] has [Tag], only
    [*remoteCanonicalRef] has [Digest].  These decide the type assertions
    [ref.(RemoteTagged)] and [ref.(RemoteCanonical)]. *)
Definition isRemoteTagged (r : RemoteNamed) : bool :=
  match r with remoteTaggedRef _ => true | _ => false end.

Definition isRemoteCanonical (r : RemoteNamed) : bool :=
  match r with remoteCanonicalRef _ => true | _ => false end.

(** [Tag()] and [Digest()]; [None] where the type has no such method, or
    where the assertion on the embedded value inside the method fails. *)
Definition Tag (r : RemoteNamed) : option string :=
  match r with remoteTaggedRef n => namedTag n | _ => None end.

Definition Digest (r : RemoteNamed) : option digest.Digest :=
  match r with remoteCanonicalRef n => namedDigest n | _ => None end.

Definition WithRemoteName `{strings.UnicodeLower} `{ReferenceBase} (name : string)
  : result RemoteNamed :=
  match normalize name with
  | Err e => Err e
  | Ok name =>
      match validateName name with
      | Some e => Err e
      | None =>
          match WithName name with
          | Err e => Err e
          | Ok r => Ok (remoteNamedRef r)
          end
      end
  end.

Definition WithRemoteTag `{ReferenceBase} (name : Named) (tag : string) : result RemoteNamed :=
  match WithTag name tag with
  | Err e => Err e
  | Ok r => Ok (remoteTaggedRef r)
  end.

Definition WithRemoteDigest `{ReferenceBase} (name : Named) (d : digest.Digest) : result RemoteNamed :=
  match WithDigest name d with
  | Err e => Err e
  | Ok r => Ok (remoteCanonicalRef r)
  end.

Definition ParseRemoteNamed `{strings.UnicodeLower} `{ReferenceBase} (s : string)
  : result RemoteNamed :=
  match ParseNamed s with
  | inl _ => Err (ErrParsingReference s)
  | inr named =>
      match WithRemoteName (Name named) with
      | Err e => Err e
      | Ok r =>
          match namedDigest named with
          | Some d => WithRemoteDigest r d
          | None =>
              match namedTag named with
              | Some t => WithRemoteTag r t
              | None => Ok r
              end
          end
      end
  end.

(** [IsRemoteNameOnly], on the values of the three types of remote.go (its
    parameter has the interface type [Named]; the only call in the file
    passes a [RemoteNamed]): the two type assertions, in the order of the
    source. *)
Definition IsRemoteNameOnly (ref : RemoteNamed) : bool :=
  if isRemoteTagged ref then false
  else if isRemoteCanonical ref then false
  else true.

(** [WithDefaultRemoteTag].  The error of [WithRemoteTag] is dropped by the
    blank identifier and [ref] is overwritten with the first result, which
    is [nil] when there is an error: [None] stands for that [nil]. *)
Definition WithDefaultRemoteTag `{ReferenceBase} (ref : RemoteNamed)
  : option RemoteNamed :=
  if IsRemoteNameOnly ref then
    match WithRemoteTag ref DefaultTag with
    | Ok r => Some r
    | Err _ => None
    end
  else Some ref.

(** [digest.ParseDigest], of the digest package, is missing: a parameter. *)
Class DigestBase : Type := {
  ParseDigest : string -> BaseError + digest.Digest
}.

(** [ParseIDOrReference].  The three results are the digest (the empty
    string when none), the reference ([None] for [nil]) and the error
    ([None] for [nil]). *)
Definition ParseIDOrReference `{strings.UnicodeLower} `{ReferenceBase} `{DigestBase}
  (idOrRef : string)
  : digest.Digest * option RemoteNamed * option error :=
  let idOrRef :=
    if digest.ValidateHex idOrRef then "sha256:" ++ idOrRef else idOrRef in
  match ParseDigest idOrRef with
  | inr dgst => (dgst, None, None)
  | inl _ =>
      match ParseRemoteNamed idOrRef with
      | Ok ref => (EmptyString, Some ref, None)
      | Err err => (EmptyString, None, Some err)
      end
  end.

(** ** A base taken from the grammar of the specification

    The closed examples below run the remote layer on a concrete base, whose
    grammar is the one the specification writes down. *)

Module grammar.

(** Regular expressions over bytes, matched with derivatives. *)
Inductive regex : Type :=
| Void
| Eps
| Class (p : ascii -> bool)
| Seq (r1 r2 : regex)
| Alt (r1 r2 : regex)
| Star (r : regex).

Definition Plus (r : regex) : regex := Seq r (Star r).

Fixpoint nullable (r : regex) : bool :=
  match r with
  | Void => false
  | Eps => true
  | Class _ => false
  | Seq r1 r2 => nullable r1 && nullable r2
  | Alt r1 r2 => nullable r1 || nullable r2
  | Star _ => true
  end.

Fixpoint deriv (a : ascii) (r : regex) : regex :=
  match r with
  | Void => Void
  | Eps => Void
  | Class p => if p a then Eps else Void
  | Seq r1 r2 =>
      if nullable r1
      then Alt (Seq (deriv a r1) r2) (deriv a r2)
      else Seq (deriv a r1) r2
  | Alt r1 r2 => Alt (deriv a r1) (deriv a r2)
  | Star r1 => Seq (deriv a r1) (Star r1)
  end.

Fixpoint matches (r : regex) (s : string) : bool :=
  match s with
  | EmptyString => nullable r
  | String a rest => matches (deriv a r) rest
  end.

Definition between (lo hi : N) (a : ascii) : bool :=
  let n := N_of_ascii a in ((lo <=? n) && (n <=? hi))%N.

Definition lit (c : ascii) : regex := Class (Ascii.eqb c).

(** [[a-z0-9]] *)
Definition lowerAlnum : regex :=
  Class (fun a => between 97 122 a || between 48 57 a).

(** [[._]|__|[-]+] *)
Definition separator : regex :=
  Alt (Alt (Class (fun a => Ascii.eqb a "." || Ascii.eqb a "_"))
           (Seq (lit "_") (lit "_")))
      (Plus (lit "-")).

(** A path segment: [[a-z0-9]+(([._]|__|[-]+)[a-z0-9]+)*] *)
Definition segment : regex :=
  Seq (Plus lowerAlnum) (Star (Seq separator (Plus lowerAlnum))).

(** A name: one or more path segments joined by ["/"]. *)
Definition name : regex :=
  Seq segment (Star (Seq (lit "/") segment)).

(** [[A-Za-z0-9_]] and [[A-Za-z0-9._-]] *)
Definition wordChar (a : ascii) : bool :=
  between 65 90 a || between 97 122 a || between 48 57 a || Ascii.eqb a "_".

Definition tag : regex :=
  Seq (Class wordChar)
      (Star (Class (fun a => wordChar a || Ascii.eqb a "." || Ascii.eqb a "-"))).

(** A digest, [algorithm:hex]. *)
Definition digestRe : regex :=
  Seq (Plus lowerAlnum) (Seq (lit ":") (Plus (Class digest.isLowerHex))).

(** [cut c s]: the text before the first [c] and, when there is one, the
    text after it. *)
Fixpoint cut (c : ascii) (s : string) : string * option string :=
  match s with
  | EmptyString => (EmptyString, None)
  | String a rest =>
      if Ascii.eqb a c then (EmptyString, Some rest)
      else let '(before, after) := cut c rest in (String a before, after)
  end.

Section Bounds.

(** The two length bounds the specification leaves unnamed. *)
Variable tagMax namespaceMax : nat.

(** Modelled from the spec: the grammar validator for names, with the
    length check on the text before the first slash (regexp.go and
    reference.go are missing). *)
Definition checkName (s : string) : option BaseError :=
  if negb (matches name s) then Some InvalidNameComponent
  else match cut "/" s with
       | (ns, Some _) =>
           if (namespaceMax <? String.length ns)%nat then Some NamespaceTooLong
           else None
       | (_, None) => None
       end.

(** Modelled from the spec: the grammar validator for tags. *)
Definition checkTag (s : string) : option BaseError :=
  if matches tag s && (String.length s <=? tagMax)%nat then None
  else Some InvalidTag.

(** Modelled from the spec: the digest collaborator accepts
    [algorithm:hex]. *)
Definition checkDigest (d : digest.Digest) : option BaseError :=
  if matches digestRe d then None else Some InvalidDigest.

(** Modelled from the spec: [ParseNamed] (reference.go is missing) splits
    its input into the name, an optional [:tag] and an optional [@digest],
    and fails with [InvalidFormat] when a part breaks its grammar. *)
Definition ParseNamed (s : string) : BaseError + Named :=
  let '(body, dgst) := cut "@" s in
  let '(nm, tg) := cut ":" body in
  let nameOk := match checkName nm with None => true | Some _ => false end in
  let tagOk :=
    match tg with
    | None => true
    | Some t => match checkTag t with None => true | Some _ => false end
    end in
  let digestOk :=
    match dgst with
    | None => true
    | Some d => match checkDigest d with None => true | Some _ => false end
    end in
  if nameOk && tagOk && digestOk then inr (mkNamed nm tg dgst)
  else inl InvalidFormat.

Definition base : ReferenceBase :=
  Build_ReferenceBase ParseNamed checkName checkTag checkDigest.

End Bounds.

(** Modelled from the spec: [digest.ParseDigest] accepts [algorithm:hex] and
    returns the string as the digest. *)
Definition ParseDigest (s : string) : BaseError + digest.Digest :=
  if matches digestRe s then inr s else inl InvalidDigest.

End grammar.

(** The base used in the closed examples: tags of at most 128 bytes,
    namespaces of at most 255. *)
Definition specBase : ReferenceBase := grammar.base 128 255.

(** The digest parser used in the closed examples. *)
Definition specDigest : DigestBase := Build_DigestBase grammar.ParseDigest.


(** ** Statements used by the theorems *)

(** [s] is lowercase as [normalize] tests it: [strings.ToLower(s) == s]. *)
Definition lowercase `{strings.UnicodeLower} (s : string) : Prop :=
  strings.ToLower s = s.

(** [s] has no slash. *)
Definition slashFree (s : string) : Prop := strings.ContainsRune s "/" = false.

(** The test [splitHostname] makes on the text [h] before the first slash,
    read positively: [strings.ContainsAny(h, ".:") || h == "localhost"]. *)
Definition explicitHostname (h : string) : bool :=
  strings.ContainsAny h ".:" || (h =? "localhost")%string.

(** The text before the first slash contains ['.'] or [':'] or is
    ["localhost"]. *)
Definition hostLike (h : string) : Prop :=
  strings.ContainsRune h "." = true \/ strings.ContainsRune h ":" = true
  \/ h = "localhost".

(** The hostname after the legacy alias is folded. *)
Definition foldLegacy (h : string) : string :=
  if (h =? LegacyDefaultHostname)%string then DefaultHostname else h.

(** A name that starts with none of the prefixes [normalize] removes. *)
Definition stable (n : string) : bool :=
  negb (strings.HasPrefix n "library/")
  && negb (strings.HasPrefix n "docker.io/")
  && negb (strings.HasPrefix n "index.docker.io/").

(** [normalize] applied to its own result. *)
Definition normalizeTwice `{strings.UnicodeLower} (x : string) : result string :=
  match normalize x with
  | Ok y => normalize y
  | Err e => Err e
  end.

(** The three spellings of the artifact with remote name [R] on the default
    host. *)
Definition minimalSpelling (R : string) : string :=
  strings.TrimPrefix R DefaultRepoPrefix.
Definition fullSpelling (R : string) : string := DefaultHostname ++ "/" ++ R.
Definition legacySpelling (R : string) : string :=
  LegacyDefaultHostname ++ "/" ++ R.

(** The condition under which a name on the default host keeps its path
    when [normalize] has shortened it: the path is [a/b] with a first
    segment that is not read as a hostname and, for [a = "library"], a
    single segment [b]. *)
Definition keepsPath (host remoteName : string) : Prop :=
  host <> DefaultHostname
  \/ exists a b, remoteName = a ++ "/" ++ b
                 /\ slashFree a /\ ~ hostLike a
                 /\ (a = "library" -> slashFree b).

(** Two references answer the four accessors alike. *)
Definition sameAccessors (a b : RemoteNamed) : Prop :=
  Name a = Name b /\ FullName a = FullName b
  /\ Hostname a = Hostname b /\ RemoteName a = RemoteName b.

(** ** Go strings: basic facts *)

Section Facts.

Context {lower : strings.UnicodeLower}.

Lemma ContainsRune_app (a b : string) (c : ascii) :
  strings.ContainsRune (a ++ b) c
  = strings.ContainsRune a c || strings.ContainsRune b c.
Proof.
  induction a as [|x a IH]; simpl; [reflexivity|].
  now rewrite IH, orb_assoc.
Qed.

Lemma IndexRune_absent (s : string) (c : ascii) :
  strings.ContainsRune s c = false -> strings.IndexRune s c = -1.
Proof.
  induction s as [|x s IH]; simpl; [reflexivity|].
  intros H. apply orb_false_iff in H as [Hx Hs].
  rewrite Hx, (IH Hs). reflexivity.
Qed.

Lemma IndexRune_first (h r : string) (c : ascii) :
  strings.ContainsRune h c = false ->
  strings.IndexRune (h ++ String c r) c = Z.of_nat (String.length h).
Proof.
  induction h as [|x h IH]; simpl.
  - intros _. now rewrite Ascii.eqb_refl.
  - intros H. apply orb_false_iff in H as [Hx Hs].
    rewrite Hx, (IH Hs).
    destruct (Z.of_nat (String.length h) =? -1) eqn:E.
    + apply Z.eqb_eq in E. lia.
    + lia.
Qed.

Lemma take_app (h r : string) : strings.take (String.length h) (h ++ r) = h.
Proof. induction h as [|x h IH]; simpl; [now destruct r | now rewrite IH]. Qed.

Lemma drop_app (h r : string) : strings.drop (String.length h) (h ++ r) = r.
Proof. induction h as [|x h IH]; simpl; [reflexivity | exact IH]. Qed.

Lemma slice_to_first (h r : string) (c : ascii) :
  slice_to (h ++ String c r) (Z.of_nat (String.length h)) = h.
Proof. unfold slice_to. rewrite Nat2Z.id. apply take_app. Qed.

Lemma slice_from_first (h r : string) (c : ascii) :
  slice_from (h ++ String c r) (Z.of_nat (String.length h) + 1) = r.
Proof.
  unfold slice_from.
  replace (Z.to_nat (Z.of_nat (String.length h) + 1))
    with (String.length (h ++ String c "")).
  - replace (h ++ String c r) with ((h ++ String c "") ++ r).
    + apply drop_app.
    + induction h as [|x h IH]; simpl; [reflexivity | now rewrite IH].
  - rewrite Z2Nat.inj_add, Nat2Z.id by lia.
    induction h as [|x h IH]; simpl; [reflexivity|].
    rewrite IH. simpl. lia.
Qed.

(** Every string either has no [c], or splits at its first [c]. *)
Lemma first_split (s : string) (c : ascii) :
  strings.ContainsRune s c = false
  \/ exists h r, s = h ++ String c r /\ strings.ContainsRune h c = false.
Proof.
  induction s as [|x s IH]; simpl; [now left|].
  destruct (Ascii.eqb x c) eqn:E.
  - right. exists "", s. apply Ascii.eqb_eq in E. subst. now split.
  - destruct IH as [H | (h & r & -> & H)].
    + now left.
    + right. exists (String x h), r. simpl. rewrite E. now split.
Qed.

Lemma HasPrefix_app (p s : string) : strings.HasPrefix (p ++ s) p = true.
Proof.
  induction p as [|x p IH]; simpl; [reflexivity|].
  now rewrite Ascii.eqb_refl, IH.
Qed.

Lemma HasPrefix_split (s p : string) :
  strings.HasPrefix s p = true -> s = p ++ strings.drop (String.length p) s.
Proof.
  revert s. induction p as [|x p IH]; intros s; simpl; [reflexivity|].
  destruct s as [|a s]; [discriminate|].
  intros H. apply andb_true_iff in H as [Ha Hs].
  apply Ascii.eqb_eq in Ha. subst. now rewrite <- (IH _ Hs).
Qed.

Lemma TrimPrefix_app (p s : string) : strings.TrimPrefix (p ++ s) p = s.
Proof. unfold strings.TrimPrefix. now rewrite HasPrefix_app, drop_app. Qed.

Lemma ToLower_ASCII (s : string) :
  strings.isASCII s = true -> strings.ToLower s = strings.lowerBytes s.
Proof. unfold strings.ToLower, strings.lowerWith. now intros ->. Qed.

(** An ASCII byte cuts the lowercase test in three. *)
Lemma lowercase_cut (a : string) (c : ascii) (b : string) :
  strings.isASCIIbyte c = true ->
  (lowercase (a ++ String c b)
   <-> lowercase a /\ strings.lowerByte c = c /\ lowercase b).
Proof. apply strings.mapLower_cut. Qed.

Lemma lowercase_nil : lowercase "".
Proof. reflexivity. Qed.

Lemma lowercase_cons (c : ascii) (b : string) :
  strings.isASCIIbyte c = true ->
  (lowercase (String c b) <-> strings.lowerByte c = c /\ lowercase b).
Proof.
  intros A. pose proof (lowercase_cut "" c b A) as H. simpl in H.
  pose proof lowercase_nil. tauto.
Qed.

(** An ASCII prefix is tested byte by byte, the rest on its own. *)
Lemma lowercase_prefix (p r : string) :
  strings.isASCII p = true ->
  (lowercase (p ++ r) <-> strings.lowerBytes p = p /\ lowercase r).
Proof.
  induction p as [|c p IH]; simpl; intros A.
  - tauto.
  - apply andb_true_iff in A as [Ac Ap].
    rewrite (lowercase_cons c (p ++ r) Ac), (IH Ap). split.
    + intros (Hc & Hp & Hr). now rewrite Hc, Hp.
    + intros [H Hr]. injection H as Hc Hp. now rewrite Hc, Hp.
Qed.

(** The test of [normalize] is kept by [strings.TrimPrefix] of the default
    namespace. *)
Lemma lowercase_TrimPrefix (s : string) :
  lowercase s -> lowercase (strings.TrimPrefix s DefaultRepoPrefix).
Proof.
  unfold strings.TrimPrefix. intros L.
  destruct (strings.HasPrefix s DefaultRepoPrefix) eqn:P; [|exact L].
  apply HasPrefix_split in P.
  set (t := strings.drop (String.length DefaultRepoPrefix) s) in *.
  rewrite P in L. now apply lowercase_prefix in L.
Qed.

Lemma lowercase_eqb (s : string) :
  (strings.ToLower s =? s)%string = true <-> lowercase s.
Proof. apply String.eqb_eq. Qed.


(** ** splitHostname, case by case *)

Lemma ContainsAny_dot_colon (h : string) :
  strings.ContainsAny h ".:"
  = strings.ContainsRune h "." || strings.ContainsRune h ":".
Proof.
  induction h as [|x h IH];
    cbn [strings.ContainsAny strings.ContainsRune]; [reflexivity|].
  rewrite IH, orb_false_r.
  rewrite (Ascii.eqb_sym "." x), (Ascii.eqb_sym ":" x).
  destruct (Ascii.eqb x "."), (Ascii.eqb x ":"); cbn [orb];
    try reflexivity; now rewrite ?orb_true_r.
Qed.

Lemma explicitHostname_hostLike (h : string) :
  explicitHostname h = true <-> hostLike h.
Proof.
  unfold explicitHostname, hostLike.
  rewrite ContainsAny_dot_colon, !orb_true_iff, String.eqb_eq. tauto.
Qed.

Lemma splitHostname_slashFree (name : string) :
  slashFree name ->
  splitHostname name = (DefaultHostname, DefaultRepoPrefix ++ name).
Proof.
  unfold slashFree, splitHostname. intros H.
  rewrite (IndexRune_absent _ _ H). simpl. now rewrite H.
Qed.

Lemma splitHostname_first (h r : string) :
  slashFree h ->
  splitHostname (h ++ "/" ++ r)
  = if explicitHostname h
    then (foldLegacy h,
          if (foldLegacy h =? DefaultHostname)%string
             && negb (strings.ContainsRune r "/")
          then DefaultRepoPrefix ++ r else r)
    else (DefaultHostname, h ++ "/" ++ r).
Proof.
  unfold slashFree, splitHostname. intros H. simpl (_ ++ _).
  rewrite (IndexRune_first _ _ _ H), slice_to_first, slice_from_first.
  replace (Z.of_nat (String.length h) =? -1) with false
    by (symmetry; apply Z.eqb_neq; lia).
  rewrite <- negb_orb. fold (explicitHostname h).
  destruct (explicitHostname h); simpl.
  - reflexivity.
  - rewrite ContainsRune_app. simpl. now rewrite orb_true_r.
Qed.

(** ** normalize, case by case *)

Lemma eqb_app_l (p a b : string) : (p ++ a =? p ++ b)%string = (a =? b)%string.
Proof.
  induction p as [|x p IH]; simpl; [reflexivity|].
  now rewrite Ascii.eqb_refl, IH.
Qed.

Lemma lowercase_prefix_eqb (p r : string) :
  strings.isASCII p = true -> strings.lowerBytes p = p ->
  (strings.ToLower (p ++ r) =? p ++ r)%string
  = (strings.ToLower r =? r)%string.
Proof.
  intros A H. apply eq_true_iff_eq. rewrite !lowercase_eqb.
  rewrite (lowercase_prefix p r A). tauto.
Qed.

Lemma HasPrefix_slash (s p q : string) :
  strings.HasPrefix s (p ++ String "/" q) = true ->
  strings.ContainsRune s "/" = true.
Proof.
  intros H. rewrite (HasPrefix_split _ _ H), !ContainsRune_app. simpl.
  now rewrite orb_true_r.
Qed.

Lemma TrimPrefix_slashFree (r : string) :
  slashFree r -> strings.TrimPrefix r DefaultRepoPrefix = r.
Proof.
  unfold slashFree, strings.TrimPrefix. intros H.
  destruct (strings.HasPrefix r DefaultRepoPrefix) eqn:E; [|reflexivity].
  apply (HasPrefix_slash r "library" "") in E. congruence.
Qed.

(** What [normalize] does once [splitHostname] has answered. *)
Lemma normalize_unfold (name : string) :
  normalize name
  = let '(host, remoteName) := splitHostname name in
    if (strings.ToLower remoteName =? remoteName)%string then
      if (host =? DefaultHostname)%string
      then Ok (strings.TrimPrefix remoteName DefaultRepoPrefix)
      else Ok name
    else Err ErrNotLowercase.
Proof.
  unfold normalize. destruct (splitHostname name) as [host remoteName].
  destruct (strings.ToLower remoteName =? remoteName)%string; cbn [negb];
    [|reflexivity].
  destruct (host =? DefaultHostname)%string; [|reflexivity].
  unfold strings.TrimPrefix.
  now destruct (strings.HasPrefix remoteName DefaultRepoPrefix).
Qed.

Lemma normalize_slashFree (name : string) :
  slashFree name ->
  normalize name
  = if (strings.ToLower name =? name)%string then Ok name
    else Err ErrNotLowercase.
Proof.
  intros H. rewrite normalize_unfold, (splitHostname_slashFree _ H).
  rewrite lowercase_prefix_eqb by reflexivity.
  now rewrite TrimPrefix_app.
Qed.

Lemma normalize_implicit (h r : string) :
  slashFree h -> explicitHostname h = false ->
  normalize (h ++ "/" ++ r)
  = if (strings.ToLower (h ++ "/" ++ r) =? h ++ "/" ++ r)%string
    then Ok (strings.TrimPrefix (h ++ "/" ++ r) DefaultRepoPrefix)
    else Err ErrNotLowercase.
Proof.
  intros H E. rewrite normalize_unfold, (splitHostname_first _ _ H), E.
  reflexivity.
Qed.

Lemma normalize_default (h r : string) :
  slashFree h -> explicitHostname h = true ->
  foldLegacy h = DefaultHostname ->
  normalize (h ++ "/" ++ r)
  = if (strings.ToLower r =? r)%string
    then Ok (strings.TrimPrefix r DefaultRepoPrefix)
    else Err ErrNotLowercase.
Proof.
  intros H E F. rewrite normalize_unfold, (splitHostname_first _ _ H), E, F.
  rewrite String.eqb_refl. cbn [andb].
  destruct (strings.ContainsRune r "/") eqn:S; cbn [negb].
  - reflexivity.
  - rewrite lowercase_prefix_eqb by reflexivity.
    rewrite TrimPrefix_app, (TrimPrefix_slashFree r S).
    reflexivity.
Qed.

Lemma normalize_other (h r : string) :
  slashFree h -> explicitHostname h = true ->
  foldLegacy h <> DefaultHostname ->
  normalize (h ++ "/" ++ r)
  = if (strings.ToLower r =? r)%string then Ok (h ++ "/" ++ r)
    else Err ErrNotLowercase.
Proof.
  intros H E F. rewrite normalize_unfold, (splitHostname_first _ _ H), E.
  apply String.eqb_neq in F. rewrite F. reflexivity.
Qed.

Lemma foldLegacy_default (h : string) :
  foldLegacy h = DefaultHostname
  <-> h = DefaultHostname \/ h = LegacyDefaultHostname.
Proof.
  unfold foldLegacy.
  destruct (h =? LegacyDefaultHostname)%string eqn:E.
  - apply String.eqb_eq in E. tauto.
  - apply String.eqb_neq in E. tauto.
Qed.

(** ** The image and the fixed points of normalize *)

Lemma stable_true (n : string) :
  stable n = true <->
  strings.HasPrefix n "library/" = false
  /\ strings.HasPrefix n "docker.io/" = false
  /\ strings.HasPrefix n "index.docker.io/" = false.
Proof.
  unfold stable. rewrite !andb_true_iff, !negb_true_iff. tauto.
Qed.

Lemma lowercase_after_slash (h r : string) :
  lowercase (h ++ "/" ++ r) -> lowercase r.
Proof.
  intros H. now apply (lowercase_cut h "/" r eq_refl) in H.
Qed.

(** A result of [normalize] is the input itself, on a host other than the
    default one, or a lowercase string. *)
Lemma normalize_Ok_cases (x y : string) :
  normalize x = Ok y ->
  (y = x /\ fst (splitHostname x) <> DefaultHostname) \/ lowercase y.
Proof.
  rewrite normalize_unfold.
  destruct (splitHostname x) as [host remoteName]; simpl.
  destruct (strings.ToLower remoteName =? remoteName)%string eqn:L;
    [|discriminate].
  apply lowercase_eqb in L.
  destruct (host =? DefaultHostname)%string eqn:E; intros [= <-].
  - right. now apply lowercase_TrimPrefix.
  - left. split; [reflexivity | now apply String.eqb_neq].
Qed.

(** A lowercase name without one of the three prefixes is left as it is. *)
Lemma normalize_stable (y : string) :
  lowercase y -> stable y = true -> normalize y = Ok y.
Proof.
  intros L S. apply stable_true in S as (S1 & S2 & S3).
  assert (Ly : (strings.ToLower y =? y)%string = true)
    by now apply lowercase_eqb.
  destruct (first_split y "/") as [F | (h & r & -> & F)].
  - now rewrite (normalize_slashFree _ F), Ly.
  - change (h ++ String "/" r) with (h ++ "/" ++ r) in *.
    destruct (explicitHostname h) eqn:E.
    + destruct (String.eqb_spec (foldLegacy h) DefaultHostname) as [D | D].
      * apply foldLegacy_default in D as [-> | ->].
        -- now rewrite (HasPrefix_app "docker.io/" r : strings.HasPrefix
                 (DefaultHostname ++ "/" ++ r) "docker.io/" = true) in S2.
        -- now rewrite (HasPrefix_app "index.docker.io/" r : strings.HasPrefix
                 (LegacyDefaultHostname ++ "/" ++ r) "index.docker.io/" = true)
             in S3.
      * rewrite (normalize_other _ _ F E D).
        apply lowercase_after_slash, lowercase_eqb in L. now rewrite L.
    + rewrite (normalize_implicit _ _ F E), Ly.
      unfold strings.TrimPrefix, DefaultRepoPrefix. now rewrite S1.
Qed.

Lemma app_length (a b : string) :
  String.length (a ++ b) = (String.length a + String.length b)%nat.
Proof. induction a as [|x a IH]; simpl; [reflexivity | now rewrite IH]. Qed.

Lemma TrimPrefix_length (s p : string) :
  (String.length (strings.TrimPrefix s p) <= String.length s)%nat.
Proof.
  unfold strings.TrimPrefix. destruct (strings.HasPrefix s p); [|lia].
  generalize (String.length p) as n. intros n. revert s.
  induction n as [|n IH]; intros [|a s]; simpl; try lia.
  specialize (IH s). lia.
Qed.

(** [normalize] never returns a name that starts with ["library/"] for
    that very name, nor one that starts with a default hostname: the result
    is shorter. *)
Lemma normalize_library_shrinks (t : string) :
  normalize (DefaultRepoPrefix ++ t) <> Ok (DefaultRepoPrefix ++ t).
Proof.
  change (DefaultRepoPrefix ++ t) with ("library" ++ "/" ++ t).
  rewrite normalize_implicit by reflexivity.
  destruct (_ =? _)%string; [|discriminate].
  change ("library" ++ "/" ++ t) with (DefaultRepoPrefix ++ t).
  rewrite TrimPrefix_app. intros [= N].
  apply (f_equal String.length) in N. simpl in N. lia.
Qed.

Lemma normalize_default_shrinks (h t : string) :
  slashFree h -> explicitHostname h = true ->
  foldLegacy h = DefaultHostname ->
  normalize (h ++ "/" ++ t) <> Ok (h ++ "/" ++ t).
Proof.
  intros F E D. rewrite (normalize_default _ _ F E D).
  destruct (_ =? _)%string; [|discriminate]. intros [= N].
  apply (f_equal String.length) in N.
  pose proof (TrimPrefix_length t DefaultRepoPrefix).
  rewrite app_length in N. simpl in N. lia.
Qed.

(** Splits [y] at the prefix [p] it is tested for, or closes the goal when
    [y] does not start with [p]. *)
Ltac starts_with y p :=
  let P := fresh "P" in
  destruct (strings.HasPrefix y p) eqn:P; [|reflexivity];
  apply HasPrefix_split in P; exfalso.

(** A name [normalize] leaves as it is starts with none of the prefixes. *)
Lemma normalize_fixed_stable (y : string) :
  normalize y = Ok y -> stable y = true.
Proof.
  intros N. apply stable_true. repeat split.
  - starts_with y "library/". rewrite P in N.
    exact (normalize_library_shrinks _ N).
  - starts_with y "docker.io/". rewrite P in N.
    exact (normalize_default_shrinks "docker.io" _ eq_refl eq_refl eq_refl N).
  - starts_with y "index.docker.io/". rewrite P in N.
    exact (normalize_default_shrinks "index.docker.io" _
             eq_refl eq_refl eq_refl N).
Qed.

(** On the image of [normalize], the fixed points are the stable names. *)
Lemma normalize_image_fixed (x y : string) :
  normalize x = Ok y -> (normalize y = Ok y <-> stable y = true).
Proof.
  intros N. split; [apply normalize_fixed_stable|].
  intros S. destruct (normalize_Ok_cases _ _ N) as [[-> _] | L];
    [exact N | now apply normalize_stable].
Qed.

(** ** The remote constructors *)

Section Remote.

Context {B : ReferenceBase}.

Lemma WithRemoteName_Ok (x : string) (ref : RemoteNamed) :
  WithRemoteName x = Ok ref <->
  exists n, normalize x = Ok n /\ digest.ValidateHex n = false
            /\ checkName n = None /\ ref = remoteNamedRef (repository n).
Proof.
  unfold WithRemoteName, validateName, WithName. split.
  - destruct (normalize x) as [n|e]; [|discriminate].
    destruct (digest.ValidateHex n) eqn:V; [discriminate|].
    destruct (checkName n) eqn:C; [discriminate|].
    intros [= <-]. now exists n.
  - intros (n & -> & -> & -> & ->). reflexivity.
Qed.

Lemma WithRemoteName_ext (a b : string) :
  normalize a = normalize b -> WithRemoteName a = WithRemoteName b.
Proof. unfold WithRemoteName. now intros ->. Qed.

Lemma WithRemoteName_Name (x : string) (ref : RemoteNamed) :
  WithRemoteName x = Ok ref -> normalize x = Ok (Name ref).
Proof. intros H. apply WithRemoteName_Ok in H as (n & N & _ & _ & ->). exact N. Qed.

Lemma ParseRemoteNamed_inr (s : string) (named : Named) :
  ParseNamed s = inr named ->
  ParseRemoteNamed s
  = match WithRemoteName (Name named) with
    | Err e => Err e
    | Ok r =>
        match namedDigest named with
        | Some d => WithRemoteDigest r d
        | None =>
            match namedTag named with
            | Some t => WithRemoteTag r t
            | None => Ok r
            end
        end
    end.
Proof. unfold ParseRemoteNamed. now intros ->. Qed.

(** Whatever [ParseRemoteNamed] returns carries the name [WithRemoteName]
    made of the parsed name. *)
Lemma ParseRemoteNamed_Ok (s : string) (ref : RemoteNamed) :
  ParseRemoteNamed s = Ok ref ->
  exists named r, ParseNamed s = inr named
                  /\ WithRemoteName (Name named) = Ok r
                  /\ Name ref = Name r.
Proof.
  unfold ParseRemoteNamed.
  destruct (ParseNamed s) as [e|named]; [discriminate|].
  destruct (WithRemoteName (Name named)) as [r|e] eqn:W; [|discriminate].
  intros H. exists named, r. split; [reflexivity|]. split; [exact W|].
  unfold WithRemoteDigest, WithDigest, WithRemoteTag, WithTag in H.
  destruct (namedDigest named) as [d|].
  - destruct (checkDigest d); [discriminate|]. now injection H as <-.
  - destruct (namedTag named) as [t|].
    + destruct (checkTag t); [discriminate|]. now injection H as <-.
    + now injection H as <-.
Qed.

End Remote.

(** ** The three spellings *)

Lemma normalize_fullSpelling (R : string) :
  normalize (fullSpelling R)
  = if (strings.ToLower R =? R)%string then Ok (minimalSpelling R)
    else Err ErrNotLowercase.
Proof. unfold fullSpelling. now rewrite normalize_default. Qed.

Lemma normalize_legacySpelling (R : string) :
  normalize (legacySpelling R)
  = if (strings.ToLower R =? R)%string then Ok (minimalSpelling R)
    else Err ErrNotLowercase.
Proof. unfold legacySpelling. now rewrite normalize_default. Qed.

Lemma lowercase_minimalSpelling (R : string) :
  lowercase R -> lowercase (minimalSpelling R).
Proof.
  unfold minimalSpelling. apply lowercase_TrimPrefix.
Qed.

(** ** The fully qualified name of a normalized name *)

Lemma splitHostname_join (n : string) :
  fst (splitHostname n) <> DefaultHostname ->
  fst (splitHostname n) ++ "/" ++ snd (splitHostname n) = n.
Proof.
  destruct (first_split n "/") as [F | (h & r & -> & F)].
  - rewrite (splitHostname_slashFree _ F). simpl. congruence.
  - change (h ++ String "/" r) with (h ++ "/" ++ r).
    rewrite (splitHostname_first _ _ F).
    destruct (explicitHostname h); cbn [fst snd]; [|congruence].
    intros D. apply String.eqb_neq in D. rewrite D. cbn [andb].
    unfold foldLegacy in *.
    destruct (h =? LegacyDefaultHostname)%string; [discriminate|reflexivity].
Qed.

Lemma normalize_fullName (n : string) :
  normalize n = Ok n ->
  normalize (fst (splitHostname n) ++ "/" ++ snd (splitHostname n)) = Ok n.
Proof.
  intros N.
  destruct (String.eqb_spec (fst (splitHostname n)) DefaultHostname) as [D|D].
  - rewrite D. fold (fullSpelling (snd (splitHostname n))).
    rewrite normalize_fullSpelling. rewrite normalize_unfold in N.
    destruct (splitHostname n) as [host remoteName]. cbn [fst snd] in *.
    destruct (strings.ToLower remoteName =? remoteName)%string;
      [|discriminate].
    subst host. now rewrite String.eqb_refl in N.
  - now rewrite (splitHostname_join _ D).
Qed.

Lemma FullName_unfold (r : RemoteNamed) :
  FullName r
  = fst (splitHostname (Name r)) ++ "/" ++ snd (splitHostname (Name r)).
Proof. unfold FullName. now destruct (splitHostname (Name r)). Qed.

(** ** Sixty-four hexadecimal characters *)

Lemma isLowerHex_facts (a : ascii) :
  digest.isLowerHex a = true ->
  strings.lowerByte a = a /\ Ascii.eqb a "/" = false
  /\ strings.isASCIIbyte a = true.
Proof.
  destruct a as [[] [] [] [] [] [] [] []]; vm_compute; intros H;
    first [discriminate H | repeat split; reflexivity].
Qed.

Lemma allLowerHex_bytes (s : string) :
  digest.allLowerHex s = true ->
  strings.lowerBytes s = s /\ slashFree s /\ strings.isASCII s = true.
Proof.
  unfold slashFree.
  induction s as [|a s IH]; simpl; [now repeat split|].
  intros H. apply andb_true_iff in H as [Ha Hs].
  destruct (isLowerHex_facts a Ha) as (La & Sa & Aa), (IH Hs) as (L & S & A).
  now rewrite La, L, Sa, S, Aa, A.
Qed.

Lemma allLowerHex_facts (s : string) :
  digest.allLowerHex s = true -> lowercase s /\ slashFree s.
Proof.
  intros H. destruct (allLowerHex_bytes s H) as (L & S & A).
  split; [|exact S]. unfold lowercase. now rewrite (ToLower_ASCII s A).
Qed.

Lemma normalize_hex_spellings (h : string) :
  digest.allLowerHex h = true ->
  normalize h = Ok h
  /\ normalize (DefaultRepoPrefix ++ h) = Ok h
  /\ normalize (fullSpelling h) = Ok h
  /\ normalize (fullSpelling (DefaultRepoPrefix ++ h)) = Ok h
  /\ normalize (legacySpelling h) = Ok h
  /\ normalize (legacySpelling (DefaultRepoPrefix ++ h)) = Ok h.
Proof.
  intros H. destruct (allLowerHex_facts _ H) as [L S].
  assert (Lb : (strings.ToLower h =? h)%string = true)
    by now apply lowercase_eqb.
  assert (Lp : (strings.ToLower (DefaultRepoPrefix ++ h)
                =? DefaultRepoPrefix ++ h)%string = true)
    by now rewrite lowercase_prefix_eqb by reflexivity.
  assert (M : minimalSpelling h = h) by now apply TrimPrefix_slashFree.
  assert (Mp : minimalSpelling (DefaultRepoPrefix ++ h) = h)
    by apply TrimPrefix_app.
  repeat split.
  - now rewrite (normalize_slashFree _ S), Lb.
  - change (normalize ("library" ++ "/" ++ h) = Ok h).
    rewrite normalize_implicit by reflexivity.
    change ("library" ++ "/" ++ h) with (DefaultRepoPrefix ++ h).
    now rewrite Lp, TrimPrefix_app.
  - now rewrite normalize_fullSpelling, Lb, M.
  - now rewrite normalize_fullSpelling, Lp, Mp.
  - now rewrite normalize_legacySpelling, Lb, M.
  - now rewrite normalize_legacySpelling, Lp, Mp.
Qed.

(** ** Names of two segments on the default host *)

Lemma HasPrefix_first_segment (ns nm p : string) :
  slashFree ns -> slashFree p ->
  strings.HasPrefix (ns ++ "/" ++ nm) (p ++ "/") = true -> ns = p.
Proof.
  unfold slashFree. revert p.
  induction ns as [|a ns IH]; intros [|b p];
    cbn [strings.HasPrefix String.append strings.ContainsRune];
    intros F G H.
  - reflexivity.
  - apply andb_true_iff in H as [H _]. apply Ascii.eqb_eq in H. subst b.
    rewrite Ascii.eqb_refl in G. discriminate.
  - apply andb_true_iff in H as [H _]. rewrite H in F. discriminate.
  - apply orb_false_iff in F as [_ F]. apply orb_false_iff in G as [_ G].
    apply andb_true_iff in H as [Hab H]. apply Ascii.eqb_eq in Hab.
    subst b. f_equal. now apply IH.
Qed.

(** A remote name [ns/nm] of two segments whose namespace is not read as a
    hostname: its minimal spelling is stable, and [splitHostname] reads the
    minimal spelling as that remote name on the default host. *)
Lemma two_segments_on_default_host (ns nm : string) :
  slashFree ns -> slashFree nm -> ~ hostLike ns ->
  stable (minimalSpelling (ns ++ "/" ++ nm)) = true
  /\ splitHostname (minimalSpelling (ns ++ "/" ++ nm))
     = (DefaultHostname, ns ++ "/" ++ nm).
Proof.
  intros Fs Fm NH.
  assert (E : explicitHostname ns = false).
  { destruct (explicitHostname ns) eqn:E; [|reflexivity].
    now apply explicitHostname_hostLike in E. }
  assert (St : forall s, slashFree s -> stable s = true).
  { intros s F. apply stable_true. repeat split.
    - destruct (strings.HasPrefix s "library/") eqn:P; [|reflexivity].
      apply (HasPrefix_slash s "library" "") in P. congruence.
    - destruct (strings.HasPrefix s "docker.io/") eqn:P; [|reflexivity].
      apply (HasPrefix_slash s "docker.io" "") in P. congruence.
    - destruct (strings.HasPrefix s "index.docker.io/") eqn:P; [|reflexivity].
      apply (HasPrefix_slash s "index.docker.io" "") in P. congruence. }
  unfold minimalSpelling, strings.TrimPrefix.
  destruct (strings.HasPrefix (ns ++ "/" ++ nm) DefaultRepoPrefix) eqn:P.
  - apply (HasPrefix_first_segment ns nm "library" Fs eq_refl) in P.
    subst ns. change ("library" ++ "/" ++ nm) with (DefaultRepoPrefix ++ nm).
    rewrite drop_app. split; [now apply St|].
    now apply splitHostname_slashFree.
  - split.
    + apply stable_true. repeat split; [exact P| |].
      * destruct (strings.HasPrefix (ns ++ "/" ++ nm) "docker.io/") eqn:Q;
          [|reflexivity].
        apply (HasPrefix_first_segment ns nm "docker.io" Fs eq_refl) in Q.
        now subst ns.
      * destruct (strings.HasPrefix (ns ++ "/" ++ nm) "index.docker.io/") eqn:Q;
          [|reflexivity].
        apply (HasPrefix_first_segment ns nm "index.docker.io" Fs eq_refl) in Q.
        now subst ns.
    + now rewrite (splitHostname_first _ _ Fs), E.
Qed.

(** ** The names [validateName] lets through *)

(** No reference made by [WithRemoteName] is named by 64 hexadecimal
    characters. *)
Lemma WithRemoteName_never_hex {B : ReferenceBase} (x : string) (ref : RemoteNamed) :
  WithRemoteName x = Ok ref -> digest.ValidateHex (Name ref) = false.
Proof. intros W. now apply WithRemoteName_Ok in W as (n & _ & V & _ & ->). Qed.

(** A name with a slash is not 64 hexadecimal characters, whatever follows
    the slash: [validateName] lets it through. *)
Lemma validateName_with_slash (ns h : string) :
  validateName (ns ++ "/" ++ h) = None.
Proof.
  unfold validateName, digest.ValidateHex.
  destruct (digest.allLowerHex (ns ++ "/" ++ h)) eqn:A.
  - apply allLowerHex_facts in A as [_ A]. unfold slashFree in A.
    rewrite ContainsRune_app in A. simpl in A.
    now rewrite orb_true_r in A.
  - now rewrite andb_false_r.
Qed.

(** * The claims *)

(** The fully qualified and the legacy spelling of any [R] are normalized
    alike. *)
Lemma legacy_alias_folds (R : string) :
  normalize (legacySpelling R) = normalize (fullSpelling R).
Proof. now rewrite normalize_legacySpelling, normalize_fullSpelling. Qed.

(** X16.  Let [R] be lowercase and let its minimal spelling ([R]
    without a leading ["library/"]) begin with none of ["library/"],
    ["docker.io/"] and ["index.docker.io/"].  Then [WithRemoteName] returns
    one and the same result for the minimal, the fully qualified and the
    legacy spelling; a reference it returns has the minimal spelling as its
    [Name()], so the three references answer [Name()], [FullName()],
    [Hostname()] and [RemoteName()] alike; and [ParseRemoteNamed] returns the
    same result for three inputs which [ParseNamed] reads as the three
    spellings with the same tag and digest. *)
Theorem spellings_agree {B : ReferenceBase} (R : string) :
  lowercase R ->
  stable (minimalSpelling R) = true ->
  WithRemoteName (minimalSpelling R) = WithRemoteName (fullSpelling R)
  /\ WithRemoteName (legacySpelling R) = WithRemoteName (fullSpelling R)
  /\ (forall ref, WithRemoteName (fullSpelling R) = Ok ref ->
        Name ref = minimalSpelling R)
  /\ (forall a b c,
        WithRemoteName (minimalSpelling R) = Ok a ->
        WithRemoteName (fullSpelling R) = Ok b ->
        WithRemoteName (legacySpelling R) = Ok c ->
        sameAccessors a b /\ sameAccessors c b)
  /\ (forall s1 s2 s3 tg dg,
        ParseNamed s1 = inr (mkNamed (minimalSpelling R) tg dg) ->
        ParseNamed s2 = inr (mkNamed (fullSpelling R) tg dg) ->
        ParseNamed s3 = inr (mkNamed (legacySpelling R) tg dg) ->
        ParseRemoteNamed s1 = ParseRemoteNamed s2
        /\ ParseRemoteNamed s3 = ParseRemoteNamed s2).
Proof.
  intros L S.
  assert (Nf : normalize (fullSpelling R) = Ok (minimalSpelling R)).
  { rewrite normalize_fullSpelling.
    now rewrite (proj2 (lowercase_eqb R) L). }
  assert (Nm : normalize (minimalSpelling R) = normalize (fullSpelling R)).
  { rewrite Nf. apply normalize_stable; [|exact S].
    now apply lowercase_minimalSpelling. }
  pose proof (WithRemoteName_ext _ _ Nm) as Wm.
  pose proof (WithRemoteName_ext _ _ (legacy_alias_folds R)) as Wl.
  split; [exact Wm|]. split; [exact Wl|]. split; [|split].
  - intros ref W. apply WithRemoteName_Name in W. congruence.
  - intros a b c Ha Hb Hc. rewrite Wm, Hb in Ha. rewrite Wl, Hb in Hc.
    injection Ha as <-. injection Hc as <-. now repeat split.
  - intros s1 s2 s3 tg dg H1 H2 H3.
    rewrite (ParseRemoteNamed_inr _ _ H1), (ParseRemoteNamed_inr _ _ H2),
      (ParseRemoteNamed_inr _ _ H3).
    cbn [Name namedTag namedDigest]. now rewrite Wm, Wl.
Qed.

(** C2.  [splitHostname] on a name without a slash answers the default
    hostname and the name behind ["library/"]; on a name with a slash it
    keeps the text [h] before the first slash as the hostname exactly when
    [h] contains ['.'] or [':'] or is ["localhost"], and otherwise answers
    the default hostname with the whole name as the path.  A kept hostname
    equal to ["index.docker.io"] becomes ["docker.io"], and the path of the
    default hostname gets ["library/"] in front when it has no slash. *)
Theorem splitHostname_cases (name : string) :
  (slashFree name ->
     splitHostname name = (DefaultHostname, DefaultRepoPrefix ++ name))
  /\ (forall h r, name = h ++ "/" ++ r -> slashFree h ->
        (hostLike h ->
           splitHostname name
           = (foldLegacy h,
              if (foldLegacy h =? DefaultHostname)%string
                 && negb (strings.ContainsRune r "/")
              then DefaultRepoPrefix ++ r else r))
        /\ (~ hostLike h -> splitHostname name = (DefaultHostname, name))).
Proof.
  split; [apply splitHostname_slashFree|].
  intros h r -> F. rewrite (splitHostname_first _ _ F).
  split; intros H.
  - apply explicitHostname_hostLike in H. now rewrite H.
  - destruct (explicitHostname h) eqn:E; [|reflexivity].
    now apply explicitHostname_hostLike in E.
Qed.

(** C3.  With [(host, remoteName)] the answer of [splitHostname]:
    [normalize] fails with its lowercase error when [remoteName] is not
    lowercase; otherwise, on the default host it returns [remoteName] without
    its leading ["library/"] when it has one and [remoteName] itself when it
    has none, and on any other host it returns its input. *)
Theorem normalize_cases (name host remoteName : string) :
  splitHostname name = (host, remoteName) ->
  (~ lowercase remoteName -> normalize name = Err ErrNotLowercase)
  /\ (lowercase remoteName -> host = DefaultHostname ->
        (forall rest, remoteName = DefaultRepoPrefix ++ rest ->
           normalize name = Ok rest)
        /\ (strings.HasPrefix remoteName DefaultRepoPrefix = false ->
              normalize name = Ok remoteName))
  /\ (lowercase remoteName -> host <> DefaultHostname ->
        normalize name = Ok name).
Proof.
  intros S. rewrite normalize_unfold, S.
  split; [|split].
  - intros L. destruct (strings.ToLower remoteName =? remoteName)%string eqn:E;
      [|reflexivity].
    now apply lowercase_eqb in E.
  - intros L ->. rewrite (proj2 (lowercase_eqb _) L), String.eqb_refl.
    split.
    + intros rest ->. now rewrite TrimPrefix_app.
    + intros P. unfold strings.TrimPrefix. now rewrite P.
  - intros L D. rewrite (proj2 (lowercase_eqb _) L).
    apply String.eqb_neq in D. now rewrite D.
Qed.

(** X17.  When [normalize x] succeeds with a result [y] that begins
    with none of ["library/"], ["docker.io/"] and ["index.docker.io/"],
    normalizing [y] again gives [y] back: [normalize (normalize x)] is
    [normalize x]. *)
Theorem normalize_idempotent_on_stable (x y : string) :
  normalize x = Ok y ->
  stable y = true ->
  normalize y = Ok y /\ normalizeTwice x = normalize x.
Proof.
  intros N S. unfold normalizeTwice. rewrite N.
  assert (F : normalize y = Ok y) by now apply (normalize_image_fixed x y N).
  now split.
Qed.

(** C5.  When [ParseNamed] finds both a tag and a digest in [s], and the
    name and the digest are valid, [ParseRemoteNamed] returns the canonical
    reference made of the normalized name and that digest: it has the
    [Digest] method, which answers the digest, it has no [Tag] method, and
    the value it embeds carries no tag. *)
Theorem digest_wins {B : ReferenceBase}
  (s : string) (named : Named) (t : string) (d : digest.Digest)
  (r : RemoteNamed) :
  ParseNamed s = inr named ->
  namedTag named = Some t ->
  namedDigest named = Some d ->
  WithRemoteName (Name named) = Ok r ->
  checkDigest d = None ->
  exists ref,
    ParseRemoteNamed s = Ok ref
    /\ ref = remoteCanonicalRef (canonicalReference (Name r) d)
    /\ isRemoteCanonical ref = true
    /\ Digest ref = Some d
    /\ isRemoteTagged ref = false
    /\ Tag ref = None
    /\ namedTag ref = None.
Proof.
  intros P _ D W C.
  exists (remoteCanonicalRef (canonicalReference (Name r) d)).
  rewrite (ParseRemoteNamed_inr _ _ P), W, D.
  unfold WithRemoteDigest, WithDigest. rewrite C. now repeat split.
Qed.

(** C6.  For a string [h] of 64 lowercase hexadecimal characters,
    [WithRemoteName] fails with the error of [validateName] on [h] itself
    and on [h] behind the default namespace and the default or the legacy
    hostname; so does it on every input that [normalize] turns into [h], and
    so does [ParseRemoteNamed] when the parsed name is such an input. *)
Theorem hex_name_rejected {B : ReferenceBase} (h : string) :
  String.length h = 64%nat ->
  digest.allLowerHex h = true ->
  WithRemoteName h = Err (ErrHexName h)
  /\ WithRemoteName (DefaultRepoPrefix ++ h) = Err (ErrHexName h)
  /\ WithRemoteName (fullSpelling h) = Err (ErrHexName h)
  /\ WithRemoteName (fullSpelling (DefaultRepoPrefix ++ h)) = Err (ErrHexName h)
  /\ WithRemoteName (legacySpelling h) = Err (ErrHexName h)
  /\ WithRemoteName (legacySpelling (DefaultRepoPrefix ++ h))
     = Err (ErrHexName h)
  /\ (forall x, normalize x = Ok h -> WithRemoteName x = Err (ErrHexName h))
  /\ (forall s named,
        ParseNamed s = inr named -> normalize (Name named) = Ok h ->
        ParseRemoteNamed s = Err (ErrHexName h)).
Proof.
  intros Len Hex.
  assert (V : digest.ValidateHex h = true).
  { unfold digest.ValidateHex. now rewrite Len, Hex. }
  assert (G : forall x, normalize x = Ok h ->
                        WithRemoteName x = Err (ErrHexName h)).
  { intros x N. unfold WithRemoteName, validateName. now rewrite N, V. }
  destruct (normalize_hex_spellings h Hex) as (N1 & N2 & N3 & N4 & N5 & N6).
  repeat split; try (now apply G).
  intros s named P N. now rewrite (ParseRemoteNamed_inr _ _ P), (G _ N).
Qed.

(** X18.  When parsing [x] succeeds with a reference whose [Name()]
    begins with none of ["library/"], ["docker.io/"] and
    ["index.docker.io/"], parsing its [FullName()] succeeds and returns a
    reference with the same [Name()] and the same [FullName()]: with
    [WithRemoteName] the very same reference, with [ParseRemoteNamed] once
    [ParseNamed] reads the fully qualified name as a plain name. *)
Theorem fullName_roundtrip {B : ReferenceBase} (x : string) (ref : RemoteNamed) :
  stable (Name ref) = true ->
  (WithRemoteName x = Ok ref -> WithRemoteName (FullName ref) = Ok ref)
  /\ (ParseRemoteNamed x = Ok ref ->
      ParseNamed (FullName ref) = inr (repository (FullName ref)) ->
      exists ref', ParseRemoteNamed (FullName ref) = Ok ref'
                   /\ Name ref' = Name ref
                   /\ FullName ref' = FullName ref).
Proof.
  intros S.
  assert (G : forall y r, WithRemoteName y = Ok r -> stable (Name r) = true ->
                          WithRemoteName (FullName r) = Ok r).
  { intros y r W Sr. rewrite <- W. apply WithRemoteName_ext.
    apply WithRemoteName_Name in W. rewrite W, FullName_unfold.
    apply normalize_fullName.
    now apply (normalize_image_fixed _ _ W). }
  split.
  - intros W. now apply G with (y := x).
  - intros P Q. destruct (ParseRemoteNamed_Ok _ _ P) as (named & r & _ & W & E).
    assert (F : FullName ref = FullName r) by now rewrite !FullName_unfold, E.
    exists r. rewrite (ParseRemoteNamed_inr _ _ Q).
    unfold repository. cbn [Name namedTag namedDigest].
    rewrite F, (G _ _ W) by now rewrite <- E.
    now repeat split.
Qed.

(** C8, amended.  When [ParseNamed] fails, [ParseRemoteNamed] returns its
    own error, made of the input alone, and not the error of [ParseNamed].
    The errors of [WithRemoteName], [WithRemoteDigest] and [WithRemoteTag]
    are returned as they are. *)
Theorem ParseRemoteNamed_errors {B : ReferenceBase} (s : string) :
  (forall e, ParseNamed s = inl e ->
     ParseRemoteNamed s = Err (ErrParsingReference s)
     /\ ParseRemoteNamed s <> Err (ErrBase e))
  /\ (forall named e, ParseNamed s = inr named ->
        WithRemoteName (Name named) = Err e -> ParseRemoteNamed s = Err e)
  /\ (forall named r d e, ParseNamed s = inr named ->
        WithRemoteName (Name named) = Ok r ->
        namedDigest named = Some d -> WithRemoteDigest r d = Err e ->
        ParseRemoteNamed s = Err e)
  /\ (forall named r t e, ParseNamed s = inr named ->
        WithRemoteName (Name named) = Ok r ->
        namedDigest named = None -> namedTag named = Some t ->
        WithRemoteTag r t = Err e ->
        ParseRemoteNamed s = Err e).
Proof.
  split; [|split; [|split]].
  - intros e P. unfold ParseRemoteNamed. rewrite P. split; [reflexivity|].
    discriminate.
  - intros named e P W. now rewrite (ParseRemoteNamed_inr _ _ P), W.
  - intros named r d e P W D E.
    now rewrite (ParseRemoteNamed_inr _ _ P), W, D.
  - intros named r t e P W D T E.
    now rewrite (ParseRemoteNamed_inr _ _ P), W, D, T.
Qed.

(** C9, amended.  Let the text [h] before the first slash contain ['.'] or
    [':'] or be ["localhost"], and let the path [r] after it be lowercase.
    Then [normalize] succeeds.  It returns its input when [h] is neither
    ["docker.io"] nor ["index.docker.io"], and so whenever [h] has an
    uppercase byte; for those two hostnames it returns [r] without a leading
    ["library/"]. *)
Theorem normalize_explicit_host (h r : string) :
  slashFree h -> hostLike h -> lowercase r ->
  (h <> DefaultHostname -> h <> LegacyDefaultHostname ->
     normalize (h ++ "/" ++ r) = Ok (h ++ "/" ++ r))
  /\ (~ lowercase h -> normalize (h ++ "/" ++ r) = Ok (h ++ "/" ++ r))
  /\ (h = DefaultHostname \/ h = LegacyDefaultHostname ->
        normalize (h ++ "/" ++ r) = Ok (strings.TrimPrefix r DefaultRepoPrefix)).
Proof.
  intros F H L. apply explicitHostname_hostLike in H.
  apply lowercase_eqb in L.
  assert (G : h <> DefaultHostname -> h <> LegacyDefaultHostname ->
              normalize (h ++ "/" ++ r) = Ok (h ++ "/" ++ r)).
  { intros D1 D2. rewrite normalize_other, L; try easy.
    rewrite foldLegacy_default. tauto. }
  split; [exact G|]. split.
  - intros U. apply G; intros ->; now apply U.
  - intros D. apply foldLegacy_default in D.
    now rewrite normalize_default, L.
Qed.

(** C10.  [splitHostname] maps the empty string to the default hostname and
    the bare prefix ["library/"], [normalize] returns the empty string for
    it, [validateName] accepts it, and [WithRemoteName] hands it to
    [WithName]. *)
Theorem empty_name_passes :
  splitHostname "" = (DefaultHostname, DefaultRepoPrefix)
  /\ normalize "" = Ok ""
  /\ validateName "" = None
  /\ (forall B : ReferenceBase,
        @WithRemoteName lower B ""
        = match @WithName B "" with
          | Ok r => Ok (remoteNamedRef r)
          | Err e => Err e
          end).
Proof.
  split; [reflexivity|]. split; [reflexivity|]. split; [reflexivity|].
  intros B. unfold WithRemoteName.
  change (normalize "") with (@Ok string "").
  change (validateName "") with (@None error). reflexivity.
Qed.

End Facts.

(** * The claims on concrete inputs *)

#[local] Existing Instance bytewiseLower.

(** The rows of the repository-information table of the tests that name the
    default host. *)
Example table_ubuntu :
  @WithRemoteName bytewiseLower specBase "library/ubuntu"
  = Ok (remoteNamedRef (repository "ubuntu"))
  /\ FullName (remoteNamedRef (repository "ubuntu")) = "docker.io/library/ubuntu"
  /\ Hostname (remoteNamedRef (repository "ubuntu")) = "docker.io"
  /\ RemoteName (remoteNamedRef (repository "ubuntu")) = "library/ubuntu".
Proof. now vm_compute. Qed.

Example table_fooo_bar :
  @ParseRemoteNamed bytewiseLower specBase "index.docker.io/fooo/bar"
  = Ok (remoteNamedRef (repository "fooo/bar"))
  /\ FullName (remoteNamedRef (repository "fooo/bar")) = "docker.io/fooo/bar"
  /\ Hostname (remoteNamedRef (repository "fooo/bar")) = "docker.io"
  /\ RemoteName (remoteNamedRef (repository "fooo/bar")) = "fooo/bar".
Proof. now vm_compute. Qed.

Example table_moonbase :
  normalize "127.0.0.1:8000/private/moonbase"
  = Ok "127.0.0.1:8000/private/moonbase"
  /\ splitHostname "127.0.0.1:8000/private/moonbase"
     = ("127.0.0.1:8000", "private/moonbase").
Proof. now vm_compute. Qed.

Lemma spellings_agree_witness :
  lowercase "library/ubuntu"
  /\ stable (minimalSpelling "library/ubuntu") = true
  /\ @WithRemoteName bytewiseLower specBase (minimalSpelling "library/ubuntu")
     = @WithRemoteName bytewiseLower specBase (fullSpelling "library/ubuntu")
  /\ @WithRemoteName bytewiseLower specBase (legacySpelling "library/ubuntu")
     = @WithRemoteName bytewiseLower specBase (fullSpelling "library/ubuntu").
Proof.
  split; [reflexivity|]. split; [reflexivity|].
  pose proof (@spellings_agree bytewiseLower specBase "library/ubuntu"
                eq_refl eq_refl) as (H1 & H2 & _).
  split; [exact H1 | exact H2].
Defined.

(** C1.  The code breaks the claim at [R = "library/library/foo"]:
    [normalize] strips ["library/"] from a path of three segments, so the
    two qualified spellings get the [Name()] ["library/foo"], which is the
    minimal spelling of another artifact, while the minimal spelling
    ["library/foo"] gets the [Name()] ["foo"]. *)
Lemma spellings_disagree :
  minimalSpelling "library/library/foo" = "library/foo"
  /\ @WithRemoteName bytewiseLower specBase (minimalSpelling "library/library/foo")
     = Ok (remoteNamedRef (repository "foo"))
  /\ @WithRemoteName bytewiseLower specBase (fullSpelling "library/library/foo")
     = Ok (remoteNamedRef (repository "library/foo"))
  /\ @WithRemoteName bytewiseLower specBase (legacySpelling "library/library/foo")
     = Ok (remoteNamedRef (repository "library/foo"))
  /\ @ParseRemoteNamed bytewiseLower specBase "library/foo"
     = Ok (remoteNamedRef (repository "foo"))
  /\ @ParseRemoteNamed bytewiseLower specBase "docker.io/library/library/foo"
     = Ok (remoteNamedRef (repository "library/foo"))
  /\ Name (remoteNamedRef (repository "foo"))
     <> Name (remoteNamedRef (repository "library/foo")).
Proof. repeat split; try reflexivity. discriminate. Qed.

Lemma splitHostname_cases_witness :
  slashFree "index.docker.io"
  /\ hostLike "index.docker.io"
  /\ splitHostname "index.docker.io/debian" = ("docker.io", "library/debian").
Proof.
  split; [reflexivity|]. split; [left; reflexivity|].
  exact (proj1 (proj2 (splitHostname_cases "index.docker.io/debian")
                  "index.docker.io" "debian" eq_refl eq_refl)
               (or_introl eq_refl)).
Defined.

Lemma normalize_cases_witness :
  splitHostname "docker.io/library/ubuntu" = ("docker.io", "library/ubuntu")
  /\ lowercase "library/ubuntu"
  /\ normalize "docker.io/library/ubuntu" = Ok "ubuntu".
Proof.
  split; [reflexivity|]. split; [reflexivity|].
  exact (proj1 (proj1 (proj2 (@normalize_cases bytewiseLower
                                "docker.io/library/ubuntu"
                                "docker.io" "library/ubuntu" eq_refl))
                      eq_refl eq_refl)
               "ubuntu" eq_refl).
Defined.

Lemma normalize_idempotent_on_stable_witness :
  normalize "index.docker.io/fooo/bar" = Ok "fooo/bar"
  /\ stable "fooo/bar" = true
  /\ normalizeTwice "index.docker.io/fooo/bar"
     = normalize "index.docker.io/fooo/bar".
Proof.
  split; [reflexivity|]. split; [reflexivity|].
  exact (proj2 (@normalize_idempotent_on_stable bytewiseLower
                  "index.docker.io/fooo/bar" "fooo/bar" eq_refl eq_refl)).
Defined.

(** C4.  The code breaks the claim at [x = "library/library/foo"] and at
    [x = "docker.io/docker.io/foo"]: [normalize] returns a name that still
    starts with ["library/"], or with the default hostname, and that it
    shortens again when applied to it. *)
Lemma normalize_not_idempotent :
  normalize "library/library/foo" = Ok "library/foo"
  /\ normalize "library/foo" = Ok "foo"
  /\ normalizeTwice "library/library/foo" = Ok "foo"
  /\ normalizeTwice "library/library/foo" <> normalize "library/library/foo"
  /\ normalize "docker.io/docker.io/foo" = Ok "docker.io/foo"
  /\ normalize "docker.io/foo" = Ok "foo"
  /\ normalizeTwice "docker.io/docker.io/foo"
     <> normalize "docker.io/docker.io/foo".
Proof. repeat split; try reflexivity; discriminate. Qed.

Lemma digest_wins_witness :
  exists ref,
    @ParseRemoteNamed bytewiseLower specBase
      "busybox:latest@sha256:86e0e091d0da6bde2456dbb48306f3956bbeb2eae1b5b9a43045843f69fe4aaa"
    = Ok ref
    /\ ref = remoteCanonicalRef
               (canonicalReference "busybox"
                  "sha256:86e0e091d0da6bde2456dbb48306f3956bbeb2eae1b5b9a43045843f69fe4aaa")
    /\ isRemoteCanonical ref = true
    /\ Digest ref
       = Some "sha256:86e0e091d0da6bde2456dbb48306f3956bbeb2eae1b5b9a43045843f69fe4aaa"
    /\ isRemoteTagged ref = false
    /\ Tag ref = None
    /\ namedTag ref = None.
Proof.
  exact (@digest_wins bytewiseLower specBase
           "busybox:latest@sha256:86e0e091d0da6bde2456dbb48306f3956bbeb2eae1b5b9a43045843f69fe4aaa"
           (mkNamed "busybox" (Some "latest")
              (Some "sha256:86e0e091d0da6bde2456dbb48306f3956bbeb2eae1b5b9a43045843f69fe4aaa"))
           "latest"
           "sha256:86e0e091d0da6bde2456dbb48306f3956bbeb2eae1b5b9a43045843f69fe4aaa"
           (remoteNamedRef (repository "busybox"))
           eq_refl eq_refl eq_refl eq_refl eq_refl).
Defined.

Lemma hex_name_rejected_witness :
  @WithRemoteName bytewiseLower specBase
    "1a3f5e7d9c1b3a5f7e9d1c3b5a7f9e1d3c5b7a9f1e3d5d7c9b1a3f5e7d9c1b3a"
  = Err (ErrHexName
           "1a3f5e7d9c1b3a5f7e9d1c3b5a7f9e1d3c5b7a9f1e3d5d7c9b1a3f5e7d9c1b3a")
  /\ @WithRemoteName bytewiseLower specBase
       (fullSpelling
          "1a3f5e7d9c1b3a5f7e9d1c3b5a7f9e1d3c5b7a9f1e3d5d7c9b1a3f5e7d9c1b3a")
     = Err (ErrHexName
              "1a3f5e7d9c1b3a5f7e9d1c3b5a7f9e1d3c5b7a9f1e3d5d7c9b1a3f5e7d9c1b3a").
Proof.
  pose proof (@hex_name_rejected bytewiseLower specBase
                "1a3f5e7d9c1b3a5f7e9d1c3b5a7f9e1d3c5b7a9f1e3d5d7c9b1a3f5e7d9c1b3a"
                eq_refl eq_refl) as (H1 & _ & H3 & _).
  split; [exact H1 | exact H3].
Defined.

Lemma fullName_roundtrip_witness :
  @WithRemoteName bytewiseLower specBase "ubuntu"
  = Ok (remoteNamedRef (repository "ubuntu"))
  /\ @WithRemoteName bytewiseLower specBase "docker.io/library/ubuntu"
     = Ok (remoteNamedRef (repository "ubuntu")).
Proof.
  split; [reflexivity|].
  exact (proj1 (@fullName_roundtrip bytewiseLower specBase "ubuntu"
                  (remoteNamedRef (repository "ubuntu")) eq_refl) eq_refl).
Defined.

(** C7.  The code breaks the claim at [x = "library/library/a/b"]: the
    reference is named ["library/a/b"], and parsing its full name
    ["docker.io/library/a/b"] gives a reference named ["a/b"], whose full
    name is ["docker.io/a/b"]. *)
Lemma fullName_not_kept :
  @ParseRemoteNamed bytewiseLower specBase "library/library/a/b"
  = Ok (remoteNamedRef (repository "library/a/b"))
  /\ @WithRemoteName bytewiseLower specBase "library/library/a/b"
     = Ok (remoteNamedRef (repository "library/a/b"))
  /\ FullName (remoteNamedRef (repository "library/a/b"))
     = "docker.io/library/a/b"
  /\ @ParseRemoteNamed bytewiseLower specBase "docker.io/library/a/b"
     = Ok (remoteNamedRef (repository "a/b"))
  /\ @WithRemoteName bytewiseLower specBase "docker.io/library/a/b"
     = Ok (remoteNamedRef (repository "a/b"))
  /\ FullName (remoteNamedRef (repository "a/b")) = "docker.io/a/b"
  /\ FullName (remoteNamedRef (repository "a/b"))
     <> FullName (remoteNamedRef (repository "library/a/b")).
Proof. repeat split; try reflexivity. discriminate. Qed.

Lemma ParseRemoteNamed_errors_witness :
  @ParseNamed specBase "docker/Docker" = inl InvalidFormat
  /\ @ParseRemoteNamed bytewiseLower specBase "docker/Docker"
     = Err (ErrParsingReference "docker/Docker").
Proof.
  split; [reflexivity|].
  exact (proj1 (proj1 (@ParseRemoteNamed_errors bytewiseLower specBase
                         "docker/Docker")
                  InvalidFormat eq_refl)).
Defined.

(** C8, counterexample.  The claim fails at [s = "docker/Docker"]:
    [ParseNamed] fails with its format error, [ParseRemoteNamed] returns
    another error. *)
Lemma parse_error_replaced :
  @ParseNamed specBase "docker/Docker" = inl InvalidFormat
  /\ @ParseRemoteNamed bytewiseLower specBase "docker/Docker"
     = Err (ErrParsingReference "docker/Docker")
  /\ @ParseRemoteNamed bytewiseLower specBase "docker/Docker"
     <> Err (ErrBase InvalidFormat).
Proof. repeat split; try reflexivity. discriminate. Qed.

Lemma normalize_explicit_host_witness :
  slashFree "EXAMPLE.COM" /\ hostLike "EXAMPLE.COM" /\ lowercase "foo"
  /\ ~ lowercase "EXAMPLE.COM"
  /\ normalize "EXAMPLE.COM/foo" = Ok "EXAMPLE.COM/foo".
Proof.
  assert (U : ~ lowercase "EXAMPLE.COM") by discriminate.
  split; [reflexivity|]. split; [left; reflexivity|]. split; [reflexivity|].
  split; [exact U|].
  exact (proj1 (proj2 (@normalize_explicit_host bytewiseLower "EXAMPLE.COM" "foo"
                         eq_refl (or_introl eq_refl) eq_refl)) U).
Defined.

(** C9, counterexample.  The claim fails at ["docker.io/foo"]: the text
    before the slash contains a period, the path is lowercase, and the
    result is not the input. *)
Lemma default_host_not_kept :
  slashFree "docker.io" /\ hostLike "docker.io" /\ lowercase "foo"
  /\ normalize ("docker.io" ++ "/" ++ "foo") = Ok "foo"
  /\ normalize ("docker.io" ++ "/" ++ "foo") <> Ok ("docker.io" ++ "/" ++ "foo").
Proof.
  split; [reflexivity|]. split; [left; reflexivity|]. split; [reflexivity|].
  split; [reflexivity | discriminate].
Qed.


(** * Further properties of remote.go *)

Section MoreFacts.

Context {lower : strings.UnicodeLower}.

(** ** What splitHostname answers *)

Lemma append_assoc_s (a b c : string) : (a ++ b) ++ c = a ++ (b ++ c).
Proof. induction a as [|x a IH]; simpl; [reflexivity | now rewrite IH]. Qed.

Lemma TrimPrefix_suffix (s q : string) :
  exists p, s = p ++ strings.TrimPrefix s q.
Proof.
  unfold strings.TrimPrefix. destruct (strings.HasPrefix s q) eqn:P.
  - exists q. now apply HasPrefix_split.
  - now exists "".
Qed.

(** The answer of [splitHostname] is of one of two kinds: the default host
    with a path that has a slash, or a kept hostname with the rest of the
    name. *)
Lemma splitHostname_kinds (n : string) :
  (fst (splitHostname n) = DefaultHostname
   /\ strings.ContainsRune (snd (splitHostname n)) "/" = true)
  \/ (fst (splitHostname n) <> DefaultHostname
      /\ fst (splitHostname n) <> LegacyDefaultHostname
      /\ slashFree (fst (splitHostname n))
      /\ hostLike (fst (splitHostname n))
      /\ n = fst (splitHostname n) ++ "/" ++ snd (splitHostname n)).
Proof.
  destruct (first_split n "/") as [F | (h & r & -> & F)].
  - left. rewrite (splitHostname_slashFree _ F). cbn [fst snd].
    split; [reflexivity|]. now rewrite ContainsRune_app.
  - change (h ++ String "/" r) with (h ++ "/" ++ r).
    rewrite (splitHostname_first _ _ F).
    destruct (explicitHostname h) eqn:E; cbn [fst snd].
    + destruct (String.eqb_spec (foldLegacy h) DefaultHostname) as [D|D].
      * left. split; [exact D|]. cbn [andb].
        destruct (strings.ContainsRune r "/") eqn:S; cbn [negb]; [exact S|].
        now rewrite ContainsRune_app.
      * right. cbn [andb].
        assert (L : h <> LegacyDefaultHostname).
        { intros ->. now apply D. }
        assert (Fh : foldLegacy h = h).
        { unfold foldLegacy. apply String.eqb_neq in L. now rewrite L. }
        rewrite Fh in *. repeat split; try assumption.
        now apply explicitHostname_hostLike.
    + left. split; [reflexivity|].
      rewrite ContainsRune_app. simpl. now rewrite orb_true_r.
Qed.

Lemma splitHostname_of_default (r : string) :
  strings.ContainsRune r "/" = true ->
  splitHostname (DefaultHostname ++ "/" ++ r) = (DefaultHostname, r).
Proof.
  intros S. rewrite splitHostname_first by reflexivity.
  change (explicitHostname DefaultHostname) with true.
  change (foldLegacy DefaultHostname) with DefaultHostname.
  now rewrite String.eqb_refl, S.
Qed.

Lemma splitHostname_lowercase (n : string) :
  lowercase n -> lowercase (snd (splitHostname n)).
Proof.
  intros L. destruct (first_split n "/") as [F | (h & r & -> & F)].
  - rewrite (splitHostname_slashFree _ F). cbn [snd].
    now apply lowercase_prefix.
  - change (h ++ String "/" r) with (h ++ "/" ++ r) in *.
    rewrite (splitHostname_first _ _ F).
    pose proof (lowercase_after_slash _ _ L) as Lr.
    destruct (explicitHostname h); cbn [snd]; [|exact L].
    destruct (_ && _); [|exact Lr]. now apply lowercase_prefix.
Qed.

Lemma normalize_Ok_lower (x y : string) :
  normalize x = Ok y -> lowercase (snd (splitHostname x)).
Proof.
  rewrite normalize_unfold.
  destruct (splitHostname x) as [host remoteName]. cbn [snd].
  destruct (strings.ToLower remoteName =? remoteName)%string eqn:L;
    [|discriminate].
  intros _. now apply lowercase_eqb.
Qed.

(** The path of a name [normalize] returns is lowercase. *)
Lemma normalize_path_lowercase (x n : string) :
  normalize x = Ok n -> lowercase (snd (splitHostname n)).
Proof.
  intros N. destruct (normalize_Ok_cases _ _ N) as [[-> _] | L].
  - now apply normalize_Ok_lower with (y := x).
  - now apply splitHostname_lowercase.
Qed.

(** X1.  Whatever the name, the hostname [splitHostname] answers is never
    the legacy alias and has no slash; when it is the default hostname the
    path has a slash (a namespace), and when it is not, it is the text
    before the first slash of the name, contains ['.'] or [':'] or is
    ["localhost"], and the path is the text after that slash. *)
Theorem splitHostname_answer (n : string) :
  fst (splitHostname n) <> LegacyDefaultHostname
  /\ slashFree (fst (splitHostname n))
  /\ (fst (splitHostname n) = DefaultHostname ->
        strings.ContainsRune (snd (splitHostname n)) "/" = true)
  /\ (fst (splitHostname n) <> DefaultHostname ->
        hostLike (fst (splitHostname n))
        /\ n = fst (splitHostname n) ++ "/" ++ snd (splitHostname n)).
Proof.
  destruct (splitHostname_kinds n) as [[D S] | (D & L & F & H & J)].
  - rewrite D. split; [discriminate|]. split; [reflexivity|].
    split; [intros _; exact S | intros C; now destruct C].
  - split; [exact L|]. split; [exact F|].
    split; [intros C; now destruct D | intros _; now split].
Qed.

(** X2.  For every reference, [FullName()] is [Hostname()], a slash and
    [RemoteName()], and splitting the full name again gives back exactly
    that hostname and that remote name. *)
Theorem FullName_splits_back (ref : RemoteNamed) :
  FullName ref = Hostname ref ++ "/" ++ RemoteName ref
  /\ splitHostname (FullName ref) = (Hostname ref, RemoteName ref).
Proof.
  rewrite FullName_unfold. unfold Hostname, RemoteName.
  split; [reflexivity|].
  destruct (splitHostname_kinds (Name ref)) as [[D S] | (D & _ & _ & _ & J)].
  - rewrite D. now apply splitHostname_of_default.
  - rewrite <- J. now destruct (splitHostname (Name ref)).
Qed.

(** X3.  [normalize] only removes text from the front: a result is a suffix
    of the input, and so never longer than it. *)
Theorem normalize_suffix (x y : string) :
  normalize x = Ok y ->
  (exists p, x = p ++ y) /\ (String.length y <= String.length x)%nat.
Proof.
  intros N.
  assert (E : exists p, x = p ++ y).
  { destruct (first_split x "/") as [F | (h & r & -> & F)].
    - rewrite (normalize_slashFree _ F) in N.
      destruct (_ =? _)%string in N; [|discriminate].
      injection N as <-. now exists "".
    - change (h ++ String "/" r) with (h ++ "/" ++ r) in *.
      destruct (explicitHostname h) eqn:E.
      + destruct (String.eqb_spec (foldLegacy h) DefaultHostname) as [D|D].
        * rewrite (normalize_default _ _ F E D) in N.
          destruct (_ =? _)%string in N; [|discriminate].
          injection N as <-.
          destruct (TrimPrefix_suffix r DefaultRepoPrefix) as [p P].
          exists (h ++ "/" ++ p). rewrite P at 1.
          now rewrite !append_assoc_s.
        * rewrite (normalize_other _ _ F E D) in N.
          destruct (_ =? _)%string in N; [|discriminate].
          injection N as <-. now exists "".
      + rewrite (normalize_implicit _ _ F E) in N.
        destruct (_ =? _)%string in N; [|discriminate].
        injection N as <-. apply TrimPrefix_suffix. }
  split; [exact E|]. destruct E as [p ->]. rewrite app_length. lia.
Qed.

(** X4.  Normalizing a result of [normalize] again never fails. *)
Theorem normalize_twice_succeeds (x y : string) :
  normalize x = Ok y -> exists z, normalizeTwice x = Ok z.
Proof.
  intros N. unfold normalizeTwice. rewrite N.
  pose proof (normalize_path_lowercase _ _ N) as L.
  apply lowercase_eqb in L. rewrite normalize_unfold.
  destruct (splitHostname y) as [host remoteName]. cbn [snd] in L.
  rewrite L. destruct (host =? DefaultHostname)%string; eauto.
Qed.

(** ** What the constructors return *)

Lemma sameAccessors_of_Name (a b : RemoteNamed) :
  Name a = Name b -> sameAccessors a b.
Proof.
  intros E. unfold sameAccessors, Hostname, RemoteName.
  rewrite !FullName_unfold, E. now repeat split.
Qed.

Lemma normalize_Err (x : string) (e : error) :
  normalize x = Err e ->
  e = ErrNotLowercase /\ ~ lowercase (snd (splitHostname x)).
Proof.
  rewrite normalize_unfold.
  destruct (splitHostname x) as [host remoteName]. cbn [snd].
  destruct (strings.ToLower remoteName =? remoteName)%string eqn:L.
  - now destruct (host =? DefaultHostname)%string.
  - intros [= <-]. split; [reflexivity|]. intros C.
    apply lowercase_eqb in C. congruence.
Qed.

(** X5.  A reference returned by [WithRemoteName] or by [ParseRemoteNamed]
    has a [Name()] that some input normalizes to, that is not 64
    hexadecimal characters and that the name grammar of [WithName] has
    accepted; its [RemoteName()] is lowercase. *)
Theorem constructed_reference_invariants {B : ReferenceBase}
  (x : string) (ref : RemoteNamed) :
  WithRemoteName x = Ok ref \/ ParseRemoteNamed x = Ok ref ->
  (exists y, normalize y = Ok (Name ref))
  /\ digest.ValidateHex (Name ref) = false
  /\ checkName (Name ref) = None
  /\ lowercase (RemoteName ref).
Proof.
  intros H.
  assert (G : exists y r, WithRemoteName y = Ok r /\ Name ref = Name r).
  { destruct H as [W | P].
    - now exists x, ref.
    - destruct (ParseRemoteNamed_Ok _ _ P) as (named & r & _ & W & E).
      now exists (Name named), r. }
  destruct G as (y & r & W & E).
  apply WithRemoteName_Ok in W as (n & N & V & C & ->).
  unfold RemoteName. rewrite E. cbn [embedded Name repository].
  split; [now exists y|]. split; [exact V|]. split; [exact C|].
  now apply normalize_path_lowercase with (x := y).
Qed.

(** X6.  [WithRemoteName] keeps the artifact its input names, that is
    [Hostname()] and [RemoteName()] are what [splitHostname] answers for the
    input, when the input is on another host than the default one, or when
    its path on the default host is [a/b] with a first segment [a] that is
    not read as a hostname and, for [a = "library"], a single segment
    [b]. *)
Theorem WithRemoteName_keeps_artifact {B : ReferenceBase}
  (x : string) (ref : RemoteNamed) :
  WithRemoteName x = Ok ref ->
  fst (splitHostname x) <> DefaultHostname
  \/ (exists a b, snd (splitHostname x) = a ++ "/" ++ b
                  /\ slashFree a /\ ~ hostLike a
                  /\ (a = "library" -> slashFree b)) ->
  Hostname ref = fst (splitHostname x)
  /\ RemoteName ref = snd (splitHostname x)
  /\ FullName ref = fst (splitHostname x) ++ "/" ++ snd (splitHostname x).
Proof.
  intros W H. apply WithRemoteName_Name in W.
  rewrite FullName_unfold. unfold Hostname, RemoteName.
  enough (E : splitHostname (Name ref) = splitHostname x) by now rewrite E.
  rewrite normalize_unfold in W.
  destruct (splitHostname x) as [host remoteName] eqn:S. cbn [fst snd] in H.
  destruct (strings.ToLower remoteName =? remoteName)%string; [|discriminate].
  destruct (String.eqb_spec host DefaultHostname) as [D|D].
  - destruct H as [H | (a & b & -> & Fa & Na & Fb)]; [contradiction|].
    injection W as W.
    change (a ++ String "/" b) with (a ++ "/" ++ b) in W.
    rewrite <- W, D.
    assert (E : explicitHostname a = false).
    { destruct (explicitHostname a) eqn:E; [|reflexivity].
      now apply explicitHostname_hostLike in E. }
    unfold strings.TrimPrefix.
    destruct (strings.HasPrefix (a ++ "/" ++ b) DefaultRepoPrefix) eqn:P.
    + apply (HasPrefix_first_segment a b "library" Fa eq_refl) in P.
      subst a.
      change (strings.drop (String.length DefaultRepoPrefix)
                ("library" ++ "/" ++ b)) with b.
      now apply splitHostname_slashFree, Fb.
    + now rewrite (splitHostname_first _ _ Fa), E.
  - injection W as W. now rewrite <- W.
Qed.

(** X7.  The error of [WithRemoteName] tells which check failed: the
    lowercase error is returned exactly when the path [splitHostname]
    answers is not lowercase; the hexadecimal error exactly when the
    normalized name is 64 hexadecimal characters, and it carries that name;
    an error of the name grammar exactly when the normalized name passed
    both and the grammar refused it.  The error of [ParseRemoteNamed] for an
    unparsable input is never returned. *)
Theorem WithRemoteName_error_tells_check {B : ReferenceBase} (x : string) :
  (WithRemoteName x = Err ErrNotLowercase
   <-> ~ lowercase (snd (splitHostname x)))
  /\ (forall n, WithRemoteName x = Err (ErrHexName n)
                <-> normalize x = Ok n /\ digest.ValidateHex n = true)
  /\ (forall e, WithRemoteName x = Err (ErrBase e)
                <-> exists n, normalize x = Ok n
                              /\ digest.ValidateHex n = false
                              /\ checkName n = Some e)
  /\ (forall s, WithRemoteName x <> Err (ErrParsingReference s)).
Proof.
  unfold WithRemoteName, validateName, WithName.
  destruct (normalize x) as [n|e] eqn:N.
  - pose proof (normalize_Ok_lower _ _ N) as L.
    destruct (digest.ValidateHex n) eqn:V; [|destruct (checkName n) eqn:C].
    + split; [split; [discriminate | intros U; now destruct U]|].
      split; [|split; [|discriminate]].
      * intros m. split.
        -- intros [= <-]. now split.
        -- intros [[= <-] _]. reflexivity.
      * intros e. split; [discriminate|].
        intros (m & [= <-] & V' & _). congruence.
    + split; [split; [discriminate | intros U; now destruct U]|].
      split; [|split; [|discriminate]].
      * intros m. split; [discriminate|]. intros [[= <-] V']. congruence.
      * intros e. split.
        -- intros [= <-]. now exists n.
        -- intros (m & [= <-] & _ & C'). congruence.
    + split; [split; [discriminate | intros U; now destruct U]|].
      split; [|split; [|discriminate]].
      * intros m. split; [discriminate|]. intros [[= <-] V']. congruence.
      * intros e. split; [discriminate|].
        intros (m & [= <-] & _ & C'). congruence.
  - destruct (normalize_Err _ _ N) as [-> U].
    split; [now split|]. split; [|split; [|discriminate]].
    + intros m. split; [discriminate|]. now intros [? _].
    + intros e. split; [discriminate|]. now intros (m & ? & _).
Qed.

(** X8.  When [ParseRemoteNamed] succeeds, the kind of the reference follows
    what [ParseNamed] found: a digest gives a canonical reference (whether
    or not there is a tag), a tag alone a tagged one, neither a name-only
    one; the reference is made of the normalized name and of that digest or
    tag, and [IsRemoteNameOnly] holds of it exactly in the last case. *)
Theorem ParseRemoteNamed_kind {B : ReferenceBase}
  (s : string) (named : Named) (ref : RemoteNamed) :
  ParseNamed s = inr named ->
  ParseRemoteNamed s = Ok ref ->
  exists n,
    normalize (Name named) = Ok n
    /\ ref = match namedDigest named, namedTag named with
             | Some d, _ => remoteCanonicalRef (canonicalReference n d)
             | None, Some t => remoteTaggedRef (taggedReference n t)
             | None, None => remoteNamedRef (repository n)
             end
    /\ IsRemoteNameOnly ref
       = match namedDigest named, namedTag named with
         | None, None => true
         | _, _ => false
         end.
Proof.
  intros P R. rewrite (ParseRemoteNamed_inr _ _ P) in R.
  destruct (WithRemoteName (Name named)) as [r|e] eqn:W; [|discriminate].
  apply WithRemoteName_Ok in W as (n & N & _ & _ & ->).
  exists n. split; [exact N|].
  unfold WithRemoteDigest, WithDigest, WithRemoteTag, WithTag in R.
  cbn [embedded Name repository] in R.
  destruct (namedDigest named) as [d|].
  - destruct (checkDigest d); [discriminate|]. injection R as <-. now split.
  - destruct (namedTag named) as [t|].
    + destruct (checkTag t); [discriminate|]. injection R as <-. now split.
    + injection R as <-. now split.
Qed.

(** X9.  A tag and a digest replace each other: giving a digest to a tagged
    reference returns what giving it to the untagged one returns, a
    canonical reference with the same name and no tag, and the other way
    round. *)
Theorem tag_and_digest_replace {B : ReferenceBase}
  (r : RemoteNamed) (t : string) (d : digest.Digest) :
  (forall r1 r2,
     WithRemoteTag r t = Ok r1 -> WithRemoteDigest r1 d = Ok r2 ->
     WithRemoteDigest r d = Ok r2
     /\ sameAccessors r2 r /\ Digest r2 = Some d
     /\ isRemoteTagged r2 = false /\ namedTag r2 = None)
  /\ (forall r1 r2,
        WithRemoteDigest r d = Ok r1 -> WithRemoteTag r1 t = Ok r2 ->
        WithRemoteTag r t = Ok r2
        /\ sameAccessors r2 r /\ Tag r2 = Some t
        /\ isRemoteCanonical r2 = false /\ namedDigest r2 = None).
Proof.
  unfold WithRemoteTag, WithTag, WithRemoteDigest, WithDigest.
  split; intros r1 r2 H1 H2.
  - destruct (checkTag t); [discriminate|]. injection H1 as <-.
    destruct (checkDigest d); [discriminate|]. injection H2 as <-.
    split; [reflexivity|]. split; [now apply sameAccessors_of_Name|].
    now repeat split.
  - destruct (checkDigest d); [discriminate|]. injection H1 as <-.
    destruct (checkTag t); [discriminate|]. injection H2 as <-.
    split; [reflexivity|]. split; [now apply sameAccessors_of_Name|].
    now repeat split.
Qed.

(** X10.  A reference [WithDefaultRemoteTag] returns is never name-only and
    answers the four accessors as its argument does; it is the argument
    itself when that has a tag or a digest, and is tagged with the default
    tag otherwise; applying the function to it again changes nothing. *)
Theorem default_tag_added_once {B : ReferenceBase} (ref r' : RemoteNamed) :
  WithDefaultRemoteTag ref = Some r' ->
  IsRemoteNameOnly r' = false
  /\ sameAccessors r' ref
  /\ WithDefaultRemoteTag r' = Some r'
  /\ (IsRemoteNameOnly ref = false -> r' = ref)
  /\ (IsRemoteNameOnly ref = true ->
        Tag r' = Some DefaultTag /\ Digest r' = None).
Proof.
  unfold WithDefaultRemoteTag.
  destruct (IsRemoteNameOnly ref) eqn:I.
  - unfold WithRemoteTag, WithTag.
    destruct (checkTag DefaultTag); [discriminate|]. intros [= <-].
    split; [reflexivity|]. split; [now apply sameAccessors_of_Name|].
    split; [reflexivity|]. split; [discriminate|]. now intros _.
  - intros [= <-]. rewrite I.
    split; [reflexivity|]. split; [now apply sameAccessors_of_Name|].
    split; [reflexivity|]. split; [reflexivity | discriminate].
Qed.

(** X11.  [WithDefaultRemoteTag] returns [nil] exactly when its argument is
    name-only and the tag grammar refuses the default tag: the error of
    [WithRemoteTag] is dropped and no reference is left. *)
Theorem default_tag_nil {B : ReferenceBase} (ref : RemoteNamed) :
  WithDefaultRemoteTag ref = None
  <-> IsRemoteNameOnly ref = true /\ exists e, checkTag DefaultTag = Some e.
Proof.
  unfold WithDefaultRemoteTag, WithRemoteTag, WithTag.
  destruct (IsRemoteNameOnly ref).
  - destruct (checkTag DefaultTag) as [e|].
    + split; [intros _; split; [reflexivity | now exists e] | reflexivity].
    + split; [discriminate | now intros [_ [e ?]]].
  - split; [discriminate | now intros [? _]].
Qed.

(** ** ParseIDOrReference *)

Lemma ValidateHex_prefixed (h : string) :
  digest.ValidateHex h = true -> digest.ValidateHex ("sha256:" ++ h) = false.
Proof.
  unfold digest.ValidateHex. intros H. apply andb_true_iff in H as [L _].
  apply Nat.eqb_eq in L. rewrite app_length, L. reflexivity.
Qed.

(** X12.  A bare identifier of 64 hexadecimal characters is handled exactly
    as the same identifier behind ["sha256:"]; when the digest parser
    accepts that, the result is the digest, with no reference and no
    error. *)
Theorem bare_id_is_sha256 {B : ReferenceBase} {D : DigestBase} (h : string) :
  digest.ValidateHex h = true ->
  ParseIDOrReference h = ParseIDOrReference ("sha256:" ++ h)
  /\ (forall d, ParseDigest ("sha256:" ++ h) = inr d ->
                ParseIDOrReference h = (d, None, None)).
Proof.
  intros V. unfold ParseIDOrReference.
  rewrite V, (ValidateHex_prefixed _ V). split; [reflexivity|].
  now intros d ->.
Qed.

(** X13.  [ParseIDOrReference] returns one of three things: a digest the
    digest parser made, with no reference and no error; or the empty digest
    with a reference of [ParseRemoteNamed] and no error, and only when the
    digest parser refused the input; or the empty digest, no reference and
    the error of [ParseRemoteNamed].  A returned reference is not named by
    64 hexadecimal characters. *)
Theorem ParseIDOrReference_outcomes {B : ReferenceBase} {D : DigestBase}
  (s : string) (d : digest.Digest) (r : option RemoteNamed)
  (e : option error) :
  ParseIDOrReference s = (d, r, e) ->
  (ParseDigest (if digest.ValidateHex s then "sha256:" ++ s else s) = inr d
   /\ r = None /\ e = None)
  \/ (exists b ref,
        ParseDigest (if digest.ValidateHex s then "sha256:" ++ s else s) = inl b
        /\ ParseRemoteNamed (if digest.ValidateHex s then "sha256:" ++ s else s)
           = Ok ref
        /\ d = EmptyString /\ r = Some ref /\ e = None
        /\ digest.ValidateHex (Name ref) = false)
  \/ (exists b err,
        ParseDigest (if digest.ValidateHex s then "sha256:" ++ s else s) = inl b
        /\ ParseRemoteNamed (if digest.ValidateHex s then "sha256:" ++ s else s)
           = Err err
        /\ d = EmptyString /\ r = None /\ e = Some err).
Proof.
  unfold ParseIDOrReference.
  set (s' := if digest.ValidateHex s then "sha256:" ++ s else s).
  destruct (ParseDigest s') as [b|dg] eqn:P.
  - destruct (ParseRemoteNamed s') as [ref|err] eqn:R; intros [= <- <- <-].
    + right. left. exists b, ref. repeat split.
      destruct (ParseRemoteNamed_Ok _ _ R) as (named & r0 & _ & W & E).
      rewrite E. now apply WithRemoteName_never_hex with (x := Name named).
    + right. right. now exists b, err.
  - intros [= <- <- <-]. now left.
Qed.

(** ** The legacy alias, and a reference's own name *)

(** X14.  Whatever [R] is, ["index.docker.io/" ++ R] and
    ["docker.io/" ++ R] are split, normalized and made into a reference
    alike, errors included. *)
Theorem legacy_alias_same_reference {B : ReferenceBase} (R : string) :
  splitHostname (legacySpelling R) = splitHostname (fullSpelling R)
  /\ normalize (legacySpelling R) = normalize (fullSpelling R)
  /\ WithRemoteName (legacySpelling R) = WithRemoteName (fullSpelling R).
Proof.
  split; [|split].
  - unfold legacySpelling, fullSpelling.
    now rewrite !splitHostname_first by reflexivity.
  - apply legacy_alias_folds.
  - apply WithRemoteName_ext, legacy_alias_folds.
Qed.

(** X15.  Making a reference again from the [Name()] of a reference that
    [WithRemoteName] returned gives that reference back exactly when the
    name begins with none of ["library/"], ["docker.io/"] and
    ["index.docker.io/"]. *)
Theorem Name_roundtrip {B : ReferenceBase} (x : string) (ref : RemoteNamed) :
  WithRemoteName x = Ok ref ->
  (WithRemoteName (Name ref) = Ok ref <-> stable (Name ref) = true).
Proof.
  intros W. pose proof (WithRemoteName_Name _ _ W) as N.
  split.
  - intros W'. apply WithRemoteName_Name in W'.
    now apply normalize_fixed_stable.
  - intros S. rewrite <- W. apply WithRemoteName_ext.
    rewrite N. now apply (normalize_image_fixed _ _ N).
Qed.

(** ** Parsing the full name of a reference again *)

Lemma join_injective (h h' r r' : string) :
  slashFree h -> slashFree h' ->
  h ++ "/" ++ r = h' ++ "/" ++ r' -> h = h' /\ r = r'.
Proof.
  unfold slashFree. revert h'.
  induction h as [|a h IH]; intros [|a' h'];
    cbn [String.append strings.ContainsRune]; intros F F' E.
  - injection E as E. now split.
  - injection E as Ea _. subst a'. rewrite Ascii.eqb_refl in F'. discriminate.
  - injection E as Ea _. subst a. rewrite Ascii.eqb_refl in F. discriminate.
  - injection E as Ea E. subst a'.
    apply orb_false_iff in F as [_ F]. apply orb_false_iff in F' as [_ F'].
    destruct (IH _ F F' E) as [-> ->]. now split.
Qed.

Lemma splitHostname_rejoin (n : string) :
  splitHostname (fst (splitHostname n) ++ "/" ++ snd (splitHostname n))
  = splitHostname n.
Proof.
  destruct (splitHostname_kinds n) as [[D S] | (D & _ & _ & _ & J)].
  - rewrite D, (splitHostname_of_default _ S), <- D.
    now destruct (splitHostname n).
  - now rewrite <- J.
Qed.

Lemma splitHostname_host_slashFree (n : string) :
  slashFree (fst (splitHostname n)).
Proof.
  destruct (splitHostname_kinds n) as [[D _] | (_ & _ & F & _)];
    [now rewrite D | exact F].
Qed.

(** [normalize] keeps what [splitHostname] answers exactly under
    [keepsPath]. *)
Lemma normalize_keeps_split (x n : string) :
  normalize x = Ok n ->
  (splitHostname n = splitHostname x
   <-> keepsPath (fst (splitHostname x)) (snd (splitHostname x))).
Proof.
  intros N. rewrite normalize_unfold in N.
  pose proof (splitHostname_kinds x) as K.
  destruct (splitHostname x) as [host remoteName] eqn:S. cbn [fst snd] in *.
  destruct (strings.ToLower remoteName =? remoteName)%string; [|discriminate].
  destruct (String.eqb_spec host DefaultHostname) as [D|D].
  2:{ injection N as <-. rewrite S. split; [now left | reflexivity]. }
  injection N as <-. subst host.
  destruct K as [[_ C] | [C _]]; [|now destruct C].
  destruct (first_split remoteName "/") as [F | (a & b & -> & Fa)];
    [congruence|].
  change (a ++ String "/" b) with (a ++ "/" ++ b) in *.
  assert (Len : forall u v : string, u = v -> String.length u = String.length v)
    by (intros u v E; now rewrite E).
  unfold strings.TrimPrefix.
  destruct (strings.HasPrefix (a ++ "/" ++ b) DefaultRepoPrefix) eqn:P.
  - pose proof (HasPrefix_first_segment a b "library" Fa eq_refl P) as ->.
    change (strings.drop (String.length DefaultRepoPrefix)
              ("library" ++ "/" ++ b)) with b.
    split.
    + intros E. right. exists "library", b.
      split; [reflexivity|]. split; [reflexivity|]. split.
      * intros [H | [H | H]]; discriminate H.
      * intros _. destruct (first_split b "/") as [Fb | (c & d & -> & Fc)];
          [exact Fb|]. exfalso.
        change (c ++ String "/" d) with (c ++ "/" ++ d) in E.
        rewrite (splitHostname_first _ _ Fc) in E.
        destruct (explicitHostname c).
        -- injection E as _ E. destruct (_ && _); apply Len in E;
             rewrite ?app_length in E; simpl in E;
             rewrite ?app_length in E; simpl in E; lia.
        -- injection E as E. apply Len in E.
           rewrite ?app_length in E; simpl in E;
             rewrite ?app_length in E; simpl in E; lia.
    + intros [H | (a' & b' & E & Fa' & _ & Fb')]; [now destruct H|].
      destruct (join_injective "library" a' b b' eq_refl Fa' E) as [<- <-].
      now apply splitHostname_slashFree, Fb'.
  - split.
    + intros E. right. exists a, b.
      split; [reflexivity|]. split; [exact Fa|]. split.
      * intros H. apply explicitHostname_hostLike in H.
        rewrite (splitHostname_first _ _ Fa), H in E.
        injection E as _ E. destruct (_ && _).
        -- change (DefaultRepoPrefix ++ b) with ("library" ++ "/" ++ b) in E.
           destruct (join_injective "library" a b b eq_refl Fa E) as [<- _].
           discriminate H.
        -- apply Len in E. rewrite ?app_length in E; simpl in E. lia.
      * intros ->. discriminate P.
    + intros [H | (a' & b' & E & Fa' & Na' & _)]; [now destruct H|].
      destruct (join_injective a a' b b' Fa Fa' E) as [<- <-].
      assert (X : explicitHostname a = false).
      { destruct (explicitHostname a) eqn:X; [|reflexivity].
        now apply explicitHostname_hostLike in X. }
      now rewrite (splitHostname_first _ _ Fa), X.
Qed.

(** X19.  When [WithRemoteName] accepts the [FullName()] of a reference it
    has returned, the new reference has the same [FullName()] exactly when
    the first one is on another host than the default one, or its
    [RemoteName()] is [a/b] with a first segment [a] that is not read as a
    hostname and, for [a = "library"], a single segment [b]. *)
Theorem FullName_reparse {B : ReferenceBase} (x : string) (ref ref' : RemoteNamed) :
  WithRemoteName x = Ok ref ->
  WithRemoteName (FullName ref) = Ok ref' ->
  (FullName ref' = FullName ref
   <-> keepsPath (Hostname ref) (RemoteName ref)).
Proof.
  intros _ W'. apply WithRemoteName_Name in W'.
  pose proof (normalize_keeps_split _ _ W') as K.
  rewrite FullName_unfold, splitHostname_rejoin in K.
  unfold Hostname, RemoteName. rewrite <- K, !FullName_unfold. split.
  - intros E.
    destruct (join_injective _ _ _ _ (splitHostname_host_slashFree _)
                (splitHostname_host_slashFree _) E) as [E1 E2].
    destruct (splitHostname (Name ref')), (splitHostname (Name ref)).
    cbn [fst snd] in *. now subst.
  - now intros ->.
Qed.

End MoreFacts.

(** ** The further properties on concrete inputs *)

Lemma normalize_suffix_witness :
  normalize "index.docker.io/library/ubuntu" = Ok "ubuntu"
  /\ (exists p, "index.docker.io/library/ubuntu" = p ++ "ubuntu").
Proof.
  split; [reflexivity|].
  exact (proj1 (@normalize_suffix bytewiseLower "index.docker.io/library/ubuntu" "ubuntu"
                  eq_refl)).
Defined.

Lemma normalize_twice_succeeds_witness :
  normalize "library/library/foo" = Ok "library/foo"
  /\ exists z, normalizeTwice "library/library/foo" = Ok z.
Proof.
  split; [reflexivity|].
  exact (@normalize_twice_succeeds bytewiseLower
           "library/library/foo" "library/foo" eq_refl).
Defined.

Lemma constructed_reference_invariants_witness :
  @ParseRemoteNamed bytewiseLower specBase "docker.io/library/busybox:1.0"
  = Ok (remoteTaggedRef (taggedReference "busybox" "1.0"))
  /\ lowercase (RemoteName
                  (remoteTaggedRef (taggedReference "busybox" "1.0"))).
Proof.
  split; [reflexivity|].
  exact (proj2 (proj2 (proj2
           (@constructed_reference_invariants bytewiseLower specBase
              "docker.io/library/busybox:1.0"
              (remoteTaggedRef (taggedReference "busybox" "1.0"))
              (or_intror eq_refl))))).
Defined.

Lemma WithRemoteName_keeps_artifact_witness :
  @WithRemoteName bytewiseLower specBase "index.docker.io/library/ubuntu"
  = Ok (remoteNamedRef (repository "ubuntu"))
  /\ Hostname (remoteNamedRef (repository "ubuntu")) = "docker.io"
  /\ RemoteName (remoteNamedRef (repository "ubuntu")) = "library/ubuntu".
Proof.
  split; [reflexivity|].
  pose proof (@WithRemoteName_keeps_artifact bytewiseLower specBase
                "index.docker.io/library/ubuntu"
                (remoteNamedRef (repository "ubuntu")) eq_refl) as H.
  assert (N : ~ hostLike "library").
  { intros [C | [C | C]]; discriminate C. }
  destruct H as (H1 & H2 & _).
  - right. exists "library", "ubuntu".
    split; [reflexivity|]. split; [reflexivity|]. split; [exact N|].
    intros _. reflexivity.
  - split; [exact H1 | exact H2].
Defined.

Lemma ParseRemoteNamed_kind_witness :
  exists n,
    normalize "docker.io/library/busybox" = Ok n
    /\ remoteTaggedRef (taggedReference "busybox" "1.0")
       = remoteTaggedRef (taggedReference n "1.0")
    /\ IsRemoteNameOnly (remoteTaggedRef (taggedReference "busybox" "1.0"))
       = false.
Proof.
  exact (@ParseRemoteNamed_kind bytewiseLower specBase "docker.io/library/busybox:1.0"
           (mkNamed "docker.io/library/busybox" (Some "1.0") None)
           (remoteTaggedRef (taggedReference "busybox" "1.0"))
           eq_refl eq_refl).
Defined.

Lemma tag_and_digest_replace_witness :
  @WithRemoteDigest specBase (remoteNamedRef (repository "busybox"))
    "sha256:86e0e091d0da6bde2456dbb48306f3956bbeb2eae1b5b9a43045843f69fe4aaa"
  = Ok (remoteCanonicalRef
          (canonicalReference "busybox"
             "sha256:86e0e091d0da6bde2456dbb48306f3956bbeb2eae1b5b9a43045843f69fe4aaa")).
Proof.
  exact (proj1 (proj1 (@tag_and_digest_replace specBase
                         (remoteNamedRef (repository "busybox")) "latest"
                         "sha256:86e0e091d0da6bde2456dbb48306f3956bbeb2eae1b5b9a43045843f69fe4aaa")
                  (remoteTaggedRef (taggedReference "busybox" "latest"))
                  (remoteCanonicalRef
                     (canonicalReference "busybox"
                        "sha256:86e0e091d0da6bde2456dbb48306f3956bbeb2eae1b5b9a43045843f69fe4aaa"))
                  eq_refl eq_refl)).
Defined.

Lemma default_tag_added_once_witness :
  @WithDefaultRemoteTag specBase (remoteNamedRef (repository "busybox"))
  = Some (remoteTaggedRef (taggedReference "busybox" "latest"))
  /\ @WithDefaultRemoteTag specBase
       (remoteTaggedRef (taggedReference "busybox" "latest"))
     = Some (remoteTaggedRef (taggedReference "busybox" "latest")).
Proof.
  split; [reflexivity|].
  exact (proj1 (proj2 (proj2
           (@default_tag_added_once specBase
              (remoteNamedRef (repository "busybox"))
              (remoteTaggedRef (taggedReference "busybox" "latest"))
              eq_refl)))).
Defined.

Lemma bare_id_is_sha256_witness :
  @ParseIDOrReference bytewiseLower specBase specDigest
    "1a3f5e7d9c1b3a5f7e9d1c3b5a7f9e1d3c5b7a9f1e3d5d7c9b1a3f5e7d9c1b3a"
  = ("sha256:1a3f5e7d9c1b3a5f7e9d1c3b5a7f9e1d3c5b7a9f1e3d5d7c9b1a3f5e7d9c1b3a",
     None, None).
Proof.
  exact (proj2 (@bare_id_is_sha256 bytewiseLower specBase specDigest
                  "1a3f5e7d9c1b3a5f7e9d1c3b5a7f9e1d3c5b7a9f1e3d5d7c9b1a3f5e7d9c1b3a"
                  eq_refl)
               "sha256:1a3f5e7d9c1b3a5f7e9d1c3b5a7f9e1d3c5b7a9f1e3d5d7c9b1a3f5e7d9c1b3a"
               eq_refl).
Defined.

Lemma ParseIDOrReference_outcomes_witness :
  @ParseIDOrReference bytewiseLower specBase specDigest "busybox:1.0"
  = (EmptyString, Some (remoteTaggedRef (taggedReference "busybox" "1.0")), None)
  /\ digest.ValidateHex
       (Name (remoteTaggedRef (taggedReference "busybox" "1.0"))) = false.
Proof.
  split; [reflexivity|].
  destruct (@ParseIDOrReference_outcomes bytewiseLower specBase specDigest "busybox:1.0"
              EmptyString
              (Some (remoteTaggedRef (taggedReference "busybox" "1.0")))
              None eq_refl)
    as [(_ & C & _) | [(b & ref & _ & _ & _ & E & _ & V)
                      | (b & err & _ & _ & _ & C & _)]].
  - discriminate C.
  - injection E as <-. exact V.
  - discriminate C.
Defined.

Lemma Name_roundtrip_witness :
  @WithRemoteName bytewiseLower specBase "docker.io/fooo/bar"
  = Ok (remoteNamedRef (repository "fooo/bar"))
  /\ @WithRemoteName bytewiseLower specBase "fooo/bar"
     = Ok (remoteNamedRef (repository "fooo/bar")).
Proof.
  split; [reflexivity|].
  exact (proj2 (@Name_roundtrip bytewiseLower specBase "docker.io/fooo/bar"
                  (remoteNamedRef (repository "fooo/bar")) eq_refl) eq_refl).
Defined.

Lemma FullName_reparse_witness :
  @WithRemoteName bytewiseLower specBase "library/library/foo"
  = Ok (remoteNamedRef (repository "library/foo"))
  /\ @WithRemoteName bytewiseLower specBase "docker.io/library/foo"
     = Ok (remoteNamedRef (repository "foo"))
  /\ keepsPath "docker.io" "library/foo".
Proof.
  split; [reflexivity|]. split; [reflexivity|].
  exact (proj1 (@FullName_reparse bytewiseLower specBase "library/library/foo"
                  (remoteNamedRef (repository "library/foo"))
                  (remoteNamedRef (repository "foo")) eq_refl eq_refl)
               eq_refl).
Defined.
